(** * nirhiss / niriss reduction helpers: a shallow embedding

    The development follows the two source files of the repository:

    - [src/nirhiss/utils.py]: [scaling_image_regions], [chromatic_writer],
      [exotep_to_ers_format], [bin_at_resolution], [get_MAD_sigma];
    - [src/niriss/plotting.py]: [stacked_transits].

    Python's [float] and NumPy's [float64] are IEEE binary64 numbers: they are
    the kernel's primitive floats here, so that every definition runs on
    concrete arrays.  Exceptions are values of [exn], printed output and
    written files live in a [world] that is threaded through the calls. *)

From Stdlib Require Import ZArith Floats Lia Bool.
From stdpp Require Import gmap strings list.

Set Warnings "-inexact-float".

Local Open Scope Z_scope.

(** ** Python: exceptions, results, the world *)

Module Py.

(** The exceptions the modelled code and its libraries raise. *)
Inductive exn : Type :=
| NameError (name : string)
| KeyError (key : string)
| IndexError
| ValueError
| TypeError
| FileNotFoundError (path : string)
| LibraryError (what : string).

(** The error taxonomy of the specification (section 7), extended with the
    classes Python itself distinguishes. *)
Inductive error_class : Type :=
| InvalidArgument
| SchemaMismatch
| IOFailure
| UndefinedName
| KeyLookup
| IndexOutOfRange
| TypeMismatch
| ExternalFailure.

Definition classify (e : exn) : error_class :=
  match e with
  | NameError _ => UndefinedName
  | KeyError _ => KeyLookup
  | IndexError => IndexOutOfRange
  | ValueError => InvalidArgument
  | TypeError => TypeMismatch
  | FileNotFoundError _ => IOFailure
  | LibraryError _ => ExternalFailure
  end.

Inductive result (A : Type) : Type :=
| Ok (a : A)
| Raise (e : exn).
Arguments Ok {A} a.
Arguments Raise {A} e.

#[export] Instance result_ret : MRet result := fun _ a => Ok a.

#[export] Instance result_bind : MBind result := fun _ _ k r =>
  match r with
  | Ok a => k a
  | Raise e => Raise e
  end.

#[export] Instance result_fmap : FMap result := fun _ _ f r =>
  match r with
  | Ok a => Ok (f a)
  | Raise e => Raise e
  end.

(** [for x in l: ...] collecting one value per iteration; the first
    exception ends the loop. *)
Fixpoint rmap {A B} (f : A -> result B) (l : list A) : result (list B) :=
  match l with
  | [] => Ok []
  | a :: l' => b ← f a; bs ← rmap f l'; Ok (b :: bs)
  end.

Definition raises {A} (r : result A) (c : error_class) : Prop :=
  exists e, r = Raise e /\ classify e = c.

(** Objects a module-level name can be bound to. *)
Inductive pyobj : Type :=
| PyModule (name : string)
| PyFunction (name : string)
| PyStrList (items : list string)
| PyOther (descr : string)
| PyArray1 (a : list float)
| PyArray2 (a : list (list float))
| PyArray3 (a : list (list (list float))).

(** The names every Python 3 module sees after its own globals (the
    functions of [builtins]; its remaining entries are the exception
    classes and the constants). *)
Definition builtins : list string :=
  [ "abs"; "aiter"; "all"; "anext"; "any"; "ascii"; "bin"; "bool";
    "breakpoint"; "bytearray"; "bytes"; "callable"; "chr"; "classmethod";
    "compile"; "complex"; "delattr"; "dict"; "dir"; "divmod"; "enumerate";
    "eval"; "exec"; "filter"; "float"; "format"; "frozenset"; "getattr";
    "globals"; "hasattr"; "hash"; "help"; "hex"; "id"; "input"; "int";
    "isinstance"; "issubclass"; "iter"; "len"; "list"; "locals"; "map";
    "max"; "memoryview"; "min"; "next"; "object"; "oct"; "open"; "ord";
    "pow"; "print"; "property"; "range"; "repr"; "reversed"; "round";
    "set"; "setattr"; "slice"; "sorted"; "staticmethod"; "str"; "sum";
    "super"; "tuple"; "type"; "vars"; "zip"; "__import__" ]%string.

(** A name that a function neither takes as a parameter nor assigns is
    looked up in the globals of the defining module, then in the builtins;
    when both miss, [NameError]. *)
Definition load_global (G : gmap string pyobj) (name : string)
  : result pyobj :=
  match G !! name with
  | Some o => Ok o
  | None =>
      if bool_decide (name ∈ builtins)
      then Ok (PyFunction name)
      else Raise (NameError name)
  end.

(** [len(o)] *)
Definition len (o : pyobj) : result Z :=
  match o with
  | PyArray1 a => Ok (Z.of_nat (length a))
  | PyArray2 a => Ok (Z.of_nat (length a))
  | PyArray3 a => Ok (Z.of_nat (length a))
  | PyStrList l => Ok (Z.of_nat (length l))
  | PyModule _ | PyFunction _ | PyOther _ => Raise TypeError
  end.

(** [range(n)] *)
Definition range (n : Z) : list Z := Z.of_nat <$> seq 0 (Z.to_nat n).

(** Index normalisation of a slice bound on an axis of [n] entries:
    negative bounds count from the end, and both are clamped. *)
Definition slice_bound (n : nat) (i : Z) : nat :=
  if i <? 0 then Z.to_nat (Z.max (i + Z.of_nat n) 0)
  else Z.to_nat (Z.min i (Z.of_nat n)).

(** [l[a:b]] *)
Definition slice {A} (l : list A) (a b : Z) : list A :=
  let lo := slice_bound (length l) a in
  let hi := slice_bound (length l) b in
  take (hi - lo) (drop lo l).

(** [l[a:]] *)
Definition slice_from {A} (l : list A) (a : Z) : list A :=
  drop (slice_bound (length l) a) l.

(** [l[i]]: a negative index counts from the end; out of range raises. *)
Definition index {A} (l : list A) (i : Z) : result A :=
  let j := if i <? 0 then i + Z.of_nat (length l) else i in
  if j <? 0 then Raise IndexError
  else match l !! Z.to_nat j with
       | Some a => Ok a
       | None => Raise IndexError
       end.

End Py.

Export Py.

(** ** NumPy on binary64 arrays

    Modelled from NumPy's documented behaviour, for the functions the two
    source files call.  A 1-D array is a list, a 2-D array the list of its
    rows; an array without rows therefore carries no column count of its
    own, and where the code can meet one (an empty slice) the count is
    passed along.  Reductions add from left to right, starting from zero;
    NumPy groups the additions of a long contiguous array differently,
    which can change the last bits of a sum whose partial sums are
    rounded. *)

Module Np.

Local Open Scope float_scope.

(** A Python [int] used where a float is expected. *)
Definition of_int (z : Z) : float :=
  SF2Prim (binary_normalize prec emax z 0 false).

Definition isnan (x : float) : bool := negb (x =? x).

(** The finite numbers other than the zeros: those a ratio [x / x] is
    defined for. *)
Definition finite_nonzero (x : float) : bool :=
  match Prim2SF x with
  | S754_finite _ _ _ => true
  | _ => false
  end.

(** The number 2.0 as sign, mantissa and exponent. *)
Definition SF_two : spec_float := S754_finite false 4503599627370496 (-51).

(** A value a series can be normalised by: finite and not zero, and so is
    its double (the mean of the two middle samples of an even-length series
    adds two of them). *)
Definition normalisable (v : float) : bool :=
  finite_nonzero v && finite_nonzero (v + v).

(** The numbers without a minus sign: +0, the positive numbers, +infinity,
    and NaN. *)
Definition SF_unsigned (x : spec_float) : bool :=
  match x with
  | S754_zero s | S754_infinity s | S754_finite s _ _ => negb s
  | S754_nan => true
  end.

Definition unsigned (x : float) : bool := SF_unsigned (Prim2SF x).

(** The numbers below zero, as [x < -x] finds them: neither a zero nor a
    NaN is one. *)
Definition SF_negative (x : spec_float) : bool :=
  match x with
  | S754_infinity true | S754_finite true _ _ => true
  | _ => false
  end.

Definition negative (x : float) : bool := x <? - x.

Definition zeros (n : nat) : list float := replicate n 0.

(** [np.linspace(start, stop, num)] *)
Definition linspace (start stop : float) (num : nat) : list float :=
  match num with
  | O => []
  | S O => [start]
  | S (S k as d) =>
      let step := (stop - start) / of_int (Z.of_nat d) in
      ((fun i : nat => start + of_int (Z.of_nat i) * step) <$> seq 0 d)
        ++ [stop]
  end.

Definition flip {A} (l : list A) : list A := reverse l.

(** Elementwise operations follow NumPy's broadcasting along one axis:
    equal lengths pair up, a length-one operand is repeated, anything else
    is a [ValueError]. *)
Definition broadcast {A B C} (f : A -> B -> result C)
    (a : list A) (b : list B) : result (list C) :=
  if bool_decide (length a = length b)
  then rmap (fun p => f p.1 p.2) (zip a b)
  else match a, b with
       | [x], _ => rmap (f x) b
       | _, [y] => rmap (fun x => f x y) a
       | _, _ => Raise ValueError
       end.

(** The shape of a 2-D array, as the lengths of its rows. *)
Definition row_lengths (a : list (list float)) : list nat := length <$> a.

Definition same_shape (a b : list (list float)) : bool :=
  bool_decide (row_lengths a = row_lengths b).

(** The number of columns of a 2-D array, read off its first row. *)
Definition ncols (a : list (list float)) : nat :=
  match a with
  | r :: _ => length r
  | [] => O
  end.

(** How many entries [l[a:b]] keeps of an axis of [n] entries. *)
Definition slice_width (n : nat) (a b : Z) : nat :=
  length (slice (replicate n tt) a b).

(** Two axis lengths NumPy broadcasts against each other. *)
Definition broadcastable (m n : nat) : bool :=
  (m =? n)%nat || (m =? 1)%nat || (n =? 1)%nat.

(** [a - b] on 2-D arrays of [wa] and [wb] columns: the column counts must
    broadcast even when there is no row to subtract (NumPy refuses the
    shapes (0,3) and (0,5)). *)
Definition sub2 (wa wb : nat) (a b : list (list float))
  : result (list (list float)) :=
  if broadcastable wa wb
  then broadcast (broadcast (fun x y => Ok (x - y))) a b
  else Raise ValueError.

(** [a * v] for a scalar [v] *)
Definition scale2 (a : list (list float)) (v : float)
  : list (list float) :=
  (fun row : list float => (fun x => x * v) <$> row) <$> a.

Definition square (l : list float) : list float := (fun x => x * x) <$> l.

(** [np.nansum] of a 1-D array: NaN entries count as zero. *)
Definition nansum (l : list float) : float :=
  foldl (fun acc x => if isnan x then acc else acc + x) 0 l.

(** [np.nansum] of a whole 2-D array *)
Definition nansum2 (a : list (list float)) : float := nansum (concat a).

(** [np.nansum(a, axis=1)]: one sum per row *)
Definition nansum_axis1 (a : list (list float)) : list float :=
  nansum <$> a.

(** [np.nansum(a, axis=0)]: one sum per column.  The columns are counted on
    the first row, so an array without rows has none here (NumPy keeps its
    column count and returns that many zeros); a statement below that
    depends on the number of sums says so in its hypotheses. *)
Definition nansum_axis0 (a : list (list float)) : list float :=
  match a with
  | [] => []
  | r :: _ =>
      (fun j : nat => nansum (omap (fun row : list float => row !! j) a))
        <$> seq 0 (length r)
  end.

(** [a[x1:x2, y1:y2]] *)
Definition slice2 (a : list (list float)) (x1 x2 y1 y2 : Z)
  : list (list float) :=
  (fun row : list float => slice row y1 y2) <$> slice a x1 x2.

(** [np.argmin]: the first index of the least entry; a NaN entry counts as
    least; an empty array is a [ValueError]. *)
Fixpoint argmin_from (best : float) (besti i : nat) (l : list float)
  : nat :=
  match l with
  | [] => besti
  | x :: l' =>
      if isnan best then besti
      else if isnan x || (x <? best)
           then argmin_from x i (S i) l'
           else argmin_from best besti (S i) l'
  end.

Definition argmin (l : list float) : result nat :=
  match l with
  | [] => Raise ValueError
  | x :: l' => Ok (argmin_from x 0 1 l')
  end.

(** Sorting, for the median. *)
Fixpoint insert_sorted (x : float) (l : list float) : list float :=
  match l with
  | [] => [x]
  | y :: l' => if x <=? y then x :: l else y :: insert_sorted x l'
  end.

Definition sort (l : list float) : list float :=
  foldr insert_sorted [] l.

(** [np.median] of an array without NaN (the only use below is through
    [nanmedian]): the middle entry of the sorted array, or the mean of the
    two middle entries; NaN for an empty array. *)
Definition median (l : list float) : float :=
  let s := sort l in
  let n := length s in
  if (n =? 0)%nat then nan
  else if Nat.odd n then default nan (s !! (n / 2)%nat)
       else (default nan (s !! (n / 2 - 1)%nat)
             + default nan (s !! (n / 2)%nat)) / 2.

(** [np.nanmedian]: the median of the entries that are not NaN. *)
Definition nanmedian (l : list float) : float :=
  median (filter (fun x => isnan x = false) l).

(** [np.rint] for magnitudes below 2^52 (larger ones are integers
    already), and [np.round(x, 2)]. *)
Definition rint (x : float) : float :=
  let big := 4503599627370496 in
  if abs x <? big
  then (if x <? 0 then - ((abs x + big) - big) else (x + big) - big)
  else x.

Definition round2 (x : float) : float := rint (x * 100) / 100.

End Np.

(** ** Tables, files and printed output *)

Module PyWorld.

Local Open Scope float_scope.

(** A table cell as the CSV reader types it, and a column of them. *)
Inductive scalar : Type :=
| SFloat (x : float)
| SInt (z : Z).

Definition to_float (s : scalar) : float :=
  match s with
  | SFloat x => x
  | SInt z => Np.of_int z
  end.

Inductive column : Type :=
| FloatCol (l : list float)
| IntCol (l : list Z).

Definition col_scalars (c : column) : list scalar :=
  match c with
  | FloatCol l => SFloat <$> l
  | IntCol l => SInt <$> l
  end.

Definition col_filter (mask : list bool) (c : column) : column :=
  match c with
  | FloatCol l => FloatCol (fst <$> filter (fun p : float * bool => p.2 = true) (zip l mask))
  | IntCol l => IntCol (fst <$> filter (fun p : Z * bool => p.2 = true) (zip l mask))
  end.

(** An [astropy.table.Table]: named columns, in file order. *)
Definition Table : Type := list (string * column).

(** [len(t)]: the number of rows. *)
Definition table_len (t : Table) : nat :=
  match t with
  | [] => O
  | (_, c) :: _ => length (col_scalars c)
  end.

(** [t[name]]: the first column of that name, else [KeyError]. *)
Fixpoint table_col (t : Table) (name : string) : result column :=
  match t with
  | [] => Raise (KeyError name)
  | (n, c) :: t' => if String.eqb n name then Ok c else table_col t' name
  end.

(** [t[name][i]] *)
Definition cell (t : Table) (name : string) (i : Z) : result scalar :=
  c ← table_col t name; index (col_scalars c) i.

(** [t[mask]]: the rows where the boolean mask holds. *)
Definition table_mask (t : Table) (mask : list bool) : Table :=
  (fun p : string * column => (p.1, col_filter mask p.2)) <$> t.

(** The number of rows a mask keeps. *)
Definition count_true (mask : list bool) : nat :=
  length (filter (fun b : bool => b = true) mask).

(** Every column holds as many cells as the table has rows (what the table
    type itself guarantees in the library). *)
Definition table_wf (t : Table) : bool :=
  forallb (fun p : string * column =>
             (length (col_scalars p.2) =? table_len t)%nat) t.

Definition has_column (t : Table) (name : string) : bool :=
  match table_col t name with
  | Ok _ => true
  | Raise _ => false
  end.

(** What [print] received. *)
Inductive printed : Type :=
| PrintArray (a : list float)
| PrintRms (x : float).

(** What [np.save] received: the Python list handed to it. *)
Definition npy_payload : Type := list pyobj.

Record world : Type := World {
  stdout : list printed;
  csv_files : gmap string Table;
  npy_files : gmap string npy_payload
}.

(** Computations that may raise and that act on the world; what was printed
    or written before an exception stays. *)
Definition py (A : Type) : Type := world -> result A * world.

#[export] Instance py_ret : MRet py := fun _ a w => (Ok a, w).

#[export] Instance py_bind : MBind py := fun _ _ k c w =>
  match c w with
  | (Ok a, w') => k a w'
  | (Raise e, w') => (Raise e, w')
  end.

Definition lift {A} (r : result A) : py A := fun w => (r, w).

Definition print (p : printed) : py unit := fun w =>
  (Ok tt, World (stdout w ++ [p]) (csv_files w) (npy_files w)).

(** [Table.read(path, format='csv')] *)
Definition read_csv (path : string) : py Table := fun w =>
  match csv_files w !! path with
  | Some t => (Ok t, w)
  | None => (Raise (FileNotFoundError path), w)
  end.

(** [t.write(path, format='csv', overwrite=True)] *)
Definition write_csv (path : string) (t : Table) : py unit := fun w =>
  (Ok tt, World (stdout w) (<[path := t]> (csv_files w)) (npy_files w)).





End PyWorld.

Export PyWorld.

(** ** [src/nirhiss/utils.py] *)

Module Utils.

Local Open Scope float_scope.

(** The names the module binds at its top level: its four imports,
    [__all__] and its five functions, next to the attributes every module
    carries. *)
Definition module_globals : gmap string pyobj :=
  list_to_map
    [ ("__name__", PyOther "nirhiss.utils");
      ("__doc__", PyOther "None");
      ("__package__", PyOther "nirhiss");
      ("__loader__", PyOther "loader");
      ("__spec__", PyOther "spec");
      ("__file__", PyOther "utils.py");
      ("__cached__", PyOther "utils.pyc");
      ("__builtins__", PyModule "builtins");
      ("np", PyModule "numpy");
      ("tqdm", PyFunction "tqdm.tqdm");
      ("Table", PyOther "astropy.table.Table");
      ("ts", PyModule "transitspectroscopy");
      ("__all__",
        PyStrList ["scaling_image_regions"; "bin_at_resolution";
                   "chromatic_writer"; "exotep_to_ers_format";
                   "get_MAD_sigma"]);
      ("scaling_image_regions", PyFunction "scaling_image_regions");
      ("chromatic_writer", PyFunction "chromatic_writer");
      ("exotep_to_ers_format", PyFunction "exotep_to_ers_format");
      ("bin_at_resolution", PyFunction "bin_at_resolution");
      ("get_MAD_sigma", PyFunction "get_MAD_sigma") ]%string.

(** The module's globals with further names bound next to them, as when a
    session assigns [nirhiss.utils.<name>]; the module's own names stay. *)
Definition globals_with (extra : gmap string pyobj) : gmap string pyobj :=
  module_globals ∪ extra.

(** *** scaling_image_regions *)

(** The defaults of [vals] and [test]. *)
Definition default_vals : list float := Np.linspace 0 10 500.
Definition default_test : bool := true.

(** [integrations[j]], as the 2-D array that [[x1:x2,y1:y2]] can slice, for
    whatever the name is bound to. *)
Definition frame_of (integrations : pyobj) (j : Z)
  : result (list (list float)) :=
  match integrations with
  | PyArray3 a => index a j
  | PyArray2 a => _ ← index a j; Raise IndexError
  | PyArray1 a => _ ← index a j; Raise IndexError
  | PyStrList l => _ ← index l j; Raise TypeError
  | PyModule _ | PyFunction _ | PyOther _ => Raise TypeError
  end.

(** Lines 58-59, for one candidate [v]:
    [diff = integrations[j][x1:x2,y1:y2] - (bkg[x1:x2,y1:y2]*v)] and
    [np.sqrt(np.nansum(diff**2)/shape)]. *)
Definition rms_at (integrations : pyobj) (bkg : list (list float))
    (x1 x2 y1 y2 shape j : Z) (v : float) : result float :=
  frame ← frame_of integrations j;
  let region := Np.slice2 frame x1 x2 y1 y2 in
  let back := Np.scale2 (Np.slice2 bkg x1 x2 y1 y2) v in
  diff ← Np.sub2 (Np.slice_width (Np.ncols frame) y1 y2)
                 (Np.slice_width (Np.ncols bkg) y1 y2) region back;
  Ok (sqrt (Np.nansum2 (Np.square <$> diff) / Np.of_int shape)).

(** Lines 55-61, the body of the loop over [j] up to the value stored:
    [vals[np.argmin(rms)]]. *)
Definition best_fit (integrations : pyobj) (bkg : list (list float))
    (x1 x2 y1 y2 shape : Z) (vals : list float) (j : Z) : result float :=
  rms ← rmap (rms_at integrations bkg x1 x2 y1 y2 shape j) vals;
  i ← Np.argmin rms;
  index vals (Z.of_nat i).

(** [scaling_vals[j] = v] *)
Definition store (scaling_vals : list float) (j : Z) (v : float)
  : result (list float) :=
  if (0 <=? j)%Z && (j <? Z.of_nat (length scaling_vals))%Z
  then Ok (<[Z.to_nat j := v]> scaling_vals)
  else Raise IndexError.

(** Lines 54-61: [for j in tqdm(range(length))]. *)
Fixpoint fit_loop (step : Z -> result float) (js : list Z)
    (scaling_vals : list float) : result (list float) :=
  match js with
  | [] => Ok scaling_vals
  | j :: js' =>
      v ← step j;
      scaling_vals' ← store scaling_vals j v;
      fit_loop step js' scaling_vals'
  end.

(** The function as written, run with the globals [G].  Its first
    parameter is spelled [integraions]; the body reads [integrations],
    which is therefore a global name. *)
Definition scaling_image_regions_in (G : gmap string pyobj)
    (integraions : list (list (list float))) (bkg : list (list float))
    (x1 x2 y1 y2 : Z) (vals : list float) (test : bool) : py float :=
  let shape := ((x2 - x1) * (y2 - y1))%Z in
  _ ← lift (load_global G "np");
  _ ← lift (load_global G "len");
  integrations ← lift (load_global G "integrations");
  n ← lift (len integrations);
  let scaling_vals := Np.zeros (Z.to_nat n) in
  let length := if test then 5%Z else n in
  _ ← lift (load_global G "tqdm");
  _ ← lift (load_global G "range");
  scaling_vals ← lift (fit_loop
                         (best_fit integrations bkg x1 x2 y1 y2 shape vals)
                         (range length) scaling_vals);
  _ ← (if test then print (PrintArray (slice scaling_vals 0 5))
       else mret tt);
  mret (Np.nanmedian scaling_vals).

Definition scaling_image_regions :=
  scaling_image_regions_in module_globals.

(** *** chromatic_writer *)


(** *** exotep_to_ers_format *)

(** The table of line 95: four [float64] columns and an [int] one. *)
Record ers_table : Type := ErsTable {
  wave : list float;
  wave_err : list float;
  dppm : list float;
  dppm_err : list float;
  order : list Z
}.

Definition ers_empty : ers_table := ErsTable [] [] [] [] [].

(** [tab.add_row([a, b, c, d, o])] *)
Definition add_row (tab : ers_table) (a b c d : scalar) (o : Z)
  : ers_table :=
  ErsTable (wave tab ++ [to_float a]) (wave_err tab ++ [to_float b])
           (dppm tab ++ [to_float c]) (dppm_err tab ++ [to_float d])
           (order tab ++ [o]).

Definition as_table (tab : ers_table) : Table :=
  [ ("wave", FloatCol (wave tab)); ("wave_err", FloatCol (wave_err tab));
    ("dppm", FloatCol (dppm tab)); ("dppm_err", FloatCol (dppm_err tab));
    ("order", IntCol (order tab)) ]%string.

(** Lines 98-101 and 104-107: one pass over the rows of [t], each row
    added with the tag [o]. *)
Fixpoint add_rows (t : Table) (o : Z) (rows : list Z) (tab : ers_table)
  : result ers_table :=
  match rows with
  | [] => Ok tab
  | i :: rows' =>
      a ← cell t "wave" i;
      b ← cell t "waveMin" i;
      c ← cell t "yval" i;
      d ← cell t "yerrLow" i;
      add_rows t o rows' (add_row tab a b c d o)
  end.

(** [table2['wave'] < 0.9] *)
Definition below_threshold (c : column) : list bool :=
  (fun s => to_float s <? 0.9) <$> col_scalars c.

(** The column names of the exotep export, in the order a row reads them. *)
Definition expected_names : list string :=
  ["wave"; "waveMin"; "yval"; "yerrLow"]%string.

Definition expected_columns (t : Table) : bool :=
  forallb (has_column t) expected_names.

(** The first expected column a table lacks. *)
Definition first_missing (t : Table) : option string :=
  head (filter (fun name => has_column t name = false) expected_names).

(** How many rows of a table have [wave] strictly below 0.9 (none when the
    column is missing). *)
Definition rows_below (t : Table) : nat :=
  match table_col t "wave" with
  | Ok c => length (filter (fun s => (to_float s <? 0.9) = true)
                           (col_scalars c))
  | Raise _ => O
  end.

(** How many cells of a column are strictly below 0.9. *)
Definition count_below (c : column) : nat :=
  length (filter (fun s => (to_float s <? 0.9) = true) (col_scalars c)).

Definition exotep_to_ers_format (filename1 filename2 filename : string)
  : py Table :=
  table1 ← read_csv filename1;
  table2 ← read_csv filename2;
  let tab := ers_empty in
  tab ← lift (add_rows table1 1 (range (Z.of_nat (table_len table1))) tab);
  wave2 ← lift (table_col table2 "wave");
  let short := table_mask table2 (below_threshold wave2) in
  tab ← lift (add_rows short 2 (range (Z.of_nat (table_len short))) tab);
  _ ← write_csv filename (as_table tab);
  mret (as_table tab).

(** *** The wrappers around [transitspectroscopy.utils] *)

Section Wrappers.

(** The two library functions the wrappers call; the library is not part
    of the repository. *)
Variable ts_bin_at_resolution :
  pyobj -> list float -> Z -> string -> result (list (list float)).
Variable ts_get_mad_sigma : list float -> list float -> result float.

(** [outputs = ts.utils.bin_at_resolution(wavelength, depths, R=R,
    method=method)]: the callee is resolved first, then the arguments
    from left to right; [wavelength] is no parameter (that one is
    [wavelengths]), so it is a global name. *)
Definition bin_at_resolution_in (G : gmap string pyobj)
    (wavelengths depths : list float) (R : Z) (method : string)
  : result (list float * list float * list float) :=
  _ ← load_global G "ts";
  wavelength ← load_global G "wavelength";
  outputs ← ts_bin_at_resolution wavelength depths R method;
  wout ← index outputs 0;
  dout ← index outputs 1;
  derrout ← index outputs 2;
  Ok (wout, dout, derrout).

Definition bin_at_resolution := bin_at_resolution_in module_globals.

(** The body ends after the assignment to [mad]: the call returns
    [None]. *)
Definition get_MAD_sigma (x median : list float)
  : result (option float) :=
  _ ← load_global module_globals "ts";
  mad ← ts_get_mad_sigma x median;
  Ok None.

End Wrappers.

End Utils.

(** ** [src/niriss/plotting.py] *)

Module Plotting.

Local Open Scope float_scope.

(** What the axes receive, in drawing order. *)
Inductive artist : Type :=
| Errorbar (x y yerr : list float) (linestyle : string)
           (c : list float) (marker : string) (label : float)
| Text (x y : float) (s : float) (fontsize : Z).

Record figure : Type := Figure {
  figsize : Z * Z;
  facecolor : string;
  artists : list artist
}.

(** The variables the loop over [centers] updates. *)
Record loop_state : Type := LoopState {
  offset : float;
  x : Z;
  drawn : list artist
}.

Definition wave_offset : float := 0.5.

(** The defaults of the keyword arguments. *)
Definition default_centers : list float :=
  Np.flip (Np.linspace 0.85 2.55 15).
Definition default_offset : float := 0.05.
Definition default_offset_delta : float := 0.005.
Definition default_figsize : Z * Z := (8, 14)%Z.
Definition default_text : bool := true.
Definition default_time_ind : Z := 230%Z.
Definition default_linestyle : string := "".

(** Lines 73-75: the channels inside the window around [center] whose
    summed variance is below [1e7]. *)
Definition channels (wavelength : list float)
    (variance : list (list float)) (center : float) : result (list nat) :=
  let above := (fun w => center - wave_offset <=? w) <$> wavelength in
  let below := (fun w => w <=? center + wave_offset) <$> wavelength in
  let quiet := (fun s => s <? 1e7) <$> Np.nansum_axis0 variance in
  inwin ← Np.broadcast (fun a b => Ok (a && b)) above below;
  mask ← Np.broadcast (fun a b => Ok (a && b)) inwin quiet;
  Ok (fst <$> filter (fun p : nat * bool => p.2 = true)
                     (zip (seq 0 (length mask)) mask)).

(** [a[:, q]] *)
Definition take_columns (a : list (list float)) (q : list nat)
  : result (list (list float)) :=
  rmap (fun row : list float =>
          rmap (fun j : nat => index row (Z.of_nat j)) q) a.

(** [plt.subplots(figsize=figsize)]: matplotlib refuses a figure whose width
    or height is not positive. *)
Definition valid_figsize (figsize : Z * Z) : bool :=
  (0 <? figsize.1)%Z && (0 <? figsize.2)%Z.

Definition subplots (figsize : Z * Z) : result unit :=
  if valid_figsize figsize then Ok tt else Raise ValueError.

(** The line styles matplotlib knows by name. *)
Definition linestyles : list string :=
  [ "-"; "--"; "-."; ":"; "None"; "none"; " "; ""; "solid"; "dashed";
    "dashdot"; "dotted" ]%string.

Definition valid_linestyle (linestyle : string) : bool :=
  bool_decide (linestyle ∈ linestyles).

(** A colour given as a row of numbers is RGB or RGBA: three or four
    entries, none below 0 and none above 1. *)
Definition valid_color (c : list float) : bool :=
  ((length c =? 3)%nat || (length c =? 4)%nat)
  && forallb (fun e => negb (e <? 0) && negb (1 <? e)) c.

(** [ax.errorbar(x, y, yerr=yerr, linestyle=, c=, marker=, label=)].
    matplotlib raises [ValueError] when [x] and [y] differ in length, when
    [yerr] has neither the length of [y] nor length one, when an entry of
    [yerr] is negative, and when the colour or the line style is not one it
    knows. *)
Definition errorbar (x y yerr : list float) (linestyle : string)
    (c : list float) (marker : string) (label : float) : result artist :=
  if bool_decide (length x = length y)
     && (bool_decide (length yerr = length y)
         || bool_decide (length yerr = 1%nat))
     && negb (existsb Np.negative yerr)
     && valid_color c
     && valid_linestyle linestyle
  then Ok (Errorbar x y yerr linestyle c marker label)
  else Raise ValueError.

(** Lines 73-98: the body of the loop, for one center. *)
Definition plot_center (colors : list (list float))
    (time wavelength : list float) (flux variance : list (list float))
    (offset_delta : float) (text : bool) (time_ind : Z)
    (linestyle : string) (st : loop_state) (center : float)
  : py loop_state :=
  q ← lift (channels wavelength variance center);
  fq ← lift (take_columns flux q);
  let spec := (fun s => s / 1e6) <$> Np.nansum_axis1 fq in
  vq ← lift (take_columns variance q);
  let yerr := (fun s => sqrt s / 1e6)
                <$> Np.nansum_axis1 (Np.square <$> vq) in
  _ ← print (PrintRms (sqrt (Np.nansum (Np.square (slice spec 0 time_ind))
                             / Np.of_int time_ind)));
  let yerr := (fun e => e / Np.nanmedian spec) <$> yerr in
  let spec := (fun s => s / Np.nanmedian spec) <$> spec in
  c ← lift (index colors (x st));
  bar ← lift (errorbar time ((fun s => s - offset st) <$> spec) yerr
                       linestyle c "." (Np.round2 center));
  label ← (if text
           then tx ← lift (index time time_ind);
                mret [Text tx
                        (Np.nanmedian (slice_from spec 210) - offset st
                         + 0.001)
                        (Np.round2 center) 16]
           else mret []);
  mret (LoopState (offset st - offset_delta) (x st + 15)
                  (drawn st ++ bar :: label)).

(** [for center in centers: ...] *)
Fixpoint plot_centers (step : loop_state -> float -> py loop_state)
    (centers : list float) (st : loop_state) : py loop_state :=
  match centers with
  | [] => mret st
  | center :: centers' => st' ← step st center; plot_centers step centers' st'
  end.

(** [colors] is the module's global array, loaded when the module is
    imported from a file that is not part of the repository.  The function
    has no [return]: the value here is the figure the call has drawn on,
    which is what the caller finds in matplotlib afterwards. *)
Definition stacked_transits (colors : list (list float))
    (time wavelength : list float) (flux variance : list (list float))
    (centers : list float) (offset offset_delta : float)
    (figsize : Z * Z) (text : bool) (time_ind : Z) (linestyle : string)
  : py figure :=
  _ ← lift (subplots figsize);
  st ← plot_centers
         (plot_center colors time wavelength flux variance offset_delta
                      text time_ind linestyle)
         centers (LoopState offset 0 []);
  mret (Figure figsize "w" (drawn st)).

(** The [y] array of every error-bar series, in drawing order. *)
Definition series_of (l : list artist) : list (list float) :=
  omap (fun a => match a with
                 | Errorbar _ y _ _ _ _ _ => Some y
                 | Text _ _ _ _ => None
                 end) l.

Definition series (fig : figure) : list (list float) :=
  series_of (artists fig).

(** The number of channels the loop selects for a center. *)
Definition selected (wavelength : list float)
    (variance : list (list float)) (center : float) : nat :=
  match channels wavelength variance center with
  | Ok q => length q
  | Raise _ => O
  end.

(** The value of every sample of [spec] before normalisation, when [k]
    channels of constant flux [c] are summed. *)
Definition summed_flux (c : float) (k : nat) : float :=
  Np.nansum (replicate k c) / 1e6.

(** A summed flux that a series can be normalised by and drawn with: finite
    and above zero, with a finite double. *)
Definition flat_at (v : float) : bool := Np.normalisable v && (0 <? v).

(** A 2-D array of [T] rows and [W] columns. *)
Definition rectangular (a : list (list float)) (T W : nat) : bool :=
  (length a =? T)%nat && forallb (fun r => (length r =? W)%nat) a.

Fixpoint strictly_decreasing (l : list float) : bool :=
  match l with
  | a :: (b :: _) as l' => (b <? a) && strictly_decreasing l'
  | _ => true
  end.

(** The offsets the loop assigns: [offset], [offset - offset_delta], ... *)
Fixpoint offsets (offset offset_delta : float) (n : nat) : list float :=
  match n with
  | O => []
  | S n' => offset :: offsets (offset - offset_delta) offset_delta n'
  end.

End Plotting.

(** ** Concrete inputs used by the examples below *)

Module Scenario.

Local Open Scope float_scope.

(** An [h] by [w] image whose every pixel is [c]. *)
Definition const_image (h w : nat) (c : float) : list (list float) :=
  replicate h (replicate w c).

Definition empty_world : world := World [] ∅ ∅.

(** Ten 5x5 frames at 3.0, an all-ones background, the grid 0..5. *)
Definition frames10 : list (list (list float)) :=
  replicate 10 (const_image 5 5 3).
Definition ones5 : list (list float) := const_image 5 5 1.
Definition grid6 : list float := [0; 1; 2; 3; 4; 5].

(** The globals of a session that has bound [integrations] next to the
    module's own names. *)
Definition session (frames : list (list (list float)))
  : gmap string pyobj :=
  Utils.globals_with {["integrations" := PyArray3 frames]}.

(** Two small exotep exports: the second has one row below 0.9 and one
    above. *)
Definition table_a : Table :=
  [ ("wave", FloatCol [1.0; 1.1]%float);
    ("waveMin", FloatCol [0.01; 0.01]%float);
    ("yval", FloatCol [100; 110]%float);
    ("yerrLow", FloatCol [5; 6]%float) ]%string.

Definition table_b : Table :=
  [ ("wave", FloatCol [0.7; 0.95]%float);
    ("waveMin", FloatCol [0.01; 0.01]%float);
    ("yval", FloatCol [90; 95]%float);
    ("yerrLow", FloatCol [4; 4]%float) ]%string.

Definition two_files : world :=
  World [] (<["o1.csv" := table_a]> (<["o2.csv" := table_b]> ∅)) ∅.

(** An export whose [waveMin] column is missing. *)
Definition table_no_min : Table :=
  [ ("wave", FloatCol [1.0]%float);
    ("yval", FloatCol [100]%float);
    ("yerrLow", FloatCol [5]%float) ]%string.

Definition files_no_min : world :=
  World [] (<["o1.csv" := table_no_min]> (<["o2.csv" := table_b]> ∅)) ∅.

(** A small light-curve cube: four times, three channels between 1.0 and
    1.2 micron, unit variances, and a colour table of sixteen rows. *)
Definition times4 : list float := [0; 1; 2; 3].
Definition waves3 : list float := [1; 1.1; 1.2].
Definition unit_variance : list (list float) := const_image 4 3 1.
Definition colors16 : list (list float) := replicate 16 [0; 0; 0].

End Scenario.

(** ** Derived notions used by the further properties *)

Module Derived.

Import Utils Plotting Scenario.

Local Open Scope float_scope.

(** The cells of a column as the [float64] values a row of the output
    receives. *)
Definition col_floats (c : column) : list float := to_float <$> col_scalars c.

(** The globals of a session that has bound [wavelength]. *)
Definition session_wavelength (o : pyobj) : gmap string pyobj :=
  Utils.globals_with {["wavelength" := o]}.

(** A first table without rows and without the expected columns. *)
Definition table_empty : Table := [("lambda", FloatCol [])]%string.

Definition files_empty_first : world :=
  World [] (<["o1.csv" := table_empty]> (<["o2.csv" := table_b]> ∅)) ∅.

(** A world in which only the second export exists. *)
Definition files_second_only : world :=
  World [] (<["o2.csv" := table_b]> ∅) ∅.

(** Three frames of the background's shape, and a flux cube that is not
    constant. *)
Definition frames3 : list (list (list float)) :=
  replicate 3 (const_image 5 5 3).
Definition flux43 : list (list float) :=
  [[1; 2; 3]; [2; 3; 4]; [3; 4; 5]; [4; 5; 6]].
Definition narrow_variance : list (list float) := const_image 4 2 1.

(** What the loop of [stacked_transits] guarantees for the series of one
    center: one sample per time, and NaN throughout when no channel is
    selected. *)
Definition series_ok (time wavelength : list float)
    (variance : list (list float)) (center : float) (y : list float)
  : Prop :=
  length y = length time
  /\ (selected wavelength variance center = O ->
      y = replicate (length time) nan).

Definition is_rms (p : printed) : bool :=
  match p with
  | PrintRms _ => true
  | PrintArray _ => false
  end.

(** A colour table too short for two centers. *)
Definition colors3 : list (list float) := replicate 3 [0; 0; 0].

End Derived.

Import Utils Plotting Scenario Derived.

(** ** Name resolution *)

Lemma integrations_unbound :
  module_globals !! "integrations" = None /\ "integrations" ∉ builtins.
Proof.
  split; [reflexivity|].
  apply (proj1 (bool_decide_eq_false _)). vm_compute. reflexivity.
Qed.

Lemma wavelength_unbound :
  module_globals !! "wavelength" = None /\ "wavelength" ∉ builtins.
Proof.
  split; [reflexivity|].
  apply (proj1 (bool_decide_eq_false _)). vm_compute. reflexivity.
Qed.

Lemma load_integrations : load_global module_globals "integrations"
                          = Raise (NameError "integrations").
Proof. reflexivity. Qed.

(** ** scaling_image_regions *)

(** C10. Every call of [scaling_image_regions] raises [NameError] for
    [integrations]: the parameter is spelled [integraions], and neither the
    module's globals nor the builtins bind the name the body reads.  The only
    thing evaluated before is the region area; nothing is printed, and no
    scaling value is returned. *)
Theorem scaling_image_regions_name_error :
  forall (integraions : list (list (list float))) (bkg : list (list float))
         (x1 x2 y1 y2 : Z) (vals : list float) (test : bool) (w : world),
    scaling_image_regions integraions bkg x1 x2 y1 y2 vals test w
      = (Raise (NameError "integrations"), w)
    /\ classify (NameError "integrations") = UndefinedName
    /\ module_globals !! "integrations" = None
    /\ ("integrations" ∉ builtins)
    /\ (forall v w',
          (scaling_image_regions integraions bkg x1 x2 y1 y2 vals test w)
            <> (Ok v, w')).
Proof.
  intros.
  assert (E : scaling_image_regions integraions bkg x1 x2 y1 y2 vals test w
              = (Raise (NameError "integrations"), w)) by reflexivity.
  split; [exact E|]. split; [reflexivity|].
  split; [apply integrations_unbound|]. split; [apply integrations_unbound|].
  intros v w'. rewrite E. discriminate.
Qed.

(** C1. The scenario of the specification (ten 5x5 frames at 3.0, all-ones
    background, region (0,5,0,5), grid 0..5, test flag off): the call raises
    [NameError] instead of returning 3.0.  With the name [integrations]
    bound to the frames, the same body returns 3.0. *)
Theorem scaling_scenario_raises :
  scaling_image_regions frames10 ones5 0 5 0 5 grid6 false empty_world
    = (Raise (NameError "integrations"), empty_world)
  /\ scaling_image_regions_in (session frames10)
       frames10 ones5 0 5 0 5 grid6 false empty_world
     = (Ok 3%float, empty_world).
Proof. split; vm_compute; reflexivity. Qed.

(** ** The wrappers *)

(** C9. Every call of [bin_at_resolution] raises [NameError] for
    [wavelength] (the parameter is [wavelengths]) before the library is
    called, whatever the library does; no triple is returned. *)
Theorem bin_at_resolution_name_error :
  forall (ts_bin_at_resolution :
            pyobj -> list float -> Z -> string -> result (list (list float)))
         (wavelengths depths : list float) (R : Z) (method : string),
    bin_at_resolution ts_bin_at_resolution wavelengths depths R method
      = Raise (NameError "wavelength")
    /\ classify (NameError "wavelength") = UndefinedName
    /\ module_globals !! "wavelength" = None
    /\ ("wavelength" ∉ builtins)
    /\ (forall out,
          bin_at_resolution ts_bin_at_resolution wavelengths depths R method
            <> Ok out).
Proof.
  intros. split; [reflexivity|]. split; [reflexivity|].
  split; [apply wavelength_unbound|]. split; [apply wavelength_unbound|].
  intros out. discriminate.
Qed.

(** C8. [get_MAD_sigma] hands its arguments to the library's
    [get_mad_sigma] and drops the value: when the library returns, the call
    returns [None]; it never returns a number; an exception of the library
    passes through. *)
Theorem get_MAD_sigma_returns_none :
  forall (ts_get_mad_sigma : list float -> list float -> result float)
         (x median : list float),
    (forall mad, ts_get_mad_sigma x median = Ok mad ->
                 get_MAD_sigma ts_get_mad_sigma x median = Ok None)
    /\ (forall e, ts_get_mad_sigma x median = Raise e ->
                  get_MAD_sigma ts_get_mad_sigma x median = Raise e)
    /\ (forall v, get_MAD_sigma ts_get_mad_sigma x median <> Ok (Some v)).
Proof.
  intros lib xs med.
  assert (E : get_MAD_sigma lib xs med
              = (lib xs med ≫= fun _ => Ok None)) by reflexivity.
  rewrite E. destruct (lib xs med) as [mad|e]; cbn.
  - repeat split; intros; congruence.
  - repeat split; intros; congruence.
Qed.

(** ** exotep_to_ers_format *)

Lemma table_col_wf (t : Table) (name : string) (c : column) :
  table_wf t = true -> table_col t name = Ok c ->
  length (col_scalars c) = table_len t.
Proof.
  unfold table_wf. generalize (table_len t) as n. intros n.
  induction t as [|[k c'] t IH]; cbn [table_col forallb]; intros W H.
  - discriminate.
  - apply andb_prop in W as [W1 W2].
    destruct (String.eqb k name).
    + inversion H; subst. cbn in W1. now apply Nat.eqb_eq in W1.
    + now apply IH.
Qed.

Lemma has_column_col (t : Table) (name : string) :
  has_column t name = true -> exists c, table_col t name = Ok c.
Proof.
  unfold has_column. destruct (table_col t name) as [c|e]; [eauto|discriminate].
Qed.

Lemma index_in_range {A} (l : list A) (i : nat) :
  (i < length l)%nat -> exists a, index l (Z.of_nat i) = Ok a.
Proof.
  intros H. unfold index.
  destruct (Z.ltb_spec (Z.of_nat i) 0) as [?|_]; [lia|].
  destruct (Z.ltb_spec (Z.of_nat i) 0) as [?|_]; [lia|].
  rewrite Nat2Z.id.
  destruct (lookup_lt_is_Some_2 l i H) as [a ->]. eauto.
Qed.

Lemma cell_in_range (t : Table) (name : string) (c : column) (i : nat) :
  table_col t name = Ok c -> (i < length (col_scalars c))%nat ->
  exists s, cell t name (Z.of_nat i) = Ok s.
Proof.
  intros Hc Hi. unfold cell. rewrite Hc. cbn.
  apply index_in_range, Hi.
Qed.

(** One pass over rows that exist adds one output row per input row, each
    with the given tag. *)
Lemma add_rows_ok (t : Table) (o : Z) (n : nat) :
  expected_columns t = true -> table_wf t = true -> table_len t = n ->
  forall (rows : list nat) (tab : ers_table),
    Forall (fun i => (i < n)%nat) rows ->
    exists tab',
      add_rows t o (Z.of_nat <$> rows) tab = Ok tab'
      /\ order tab' = order tab ++ replicate (length rows) o
      /\ length (wave tab') = (length (wave tab) + length rows)%nat.
Proof.
  intros E W L.
  unfold expected_columns in E. cbn [forallb expected_names] in E.
  apply andb_prop in E as [[ca Ha]%has_column_col E].
  apply andb_prop in E as [[cb Hb]%has_column_col E].
  apply andb_prop in E as [[cc Hc]%has_column_col E].
  apply andb_prop in E as [[cd Hd]%has_column_col _].
  assert (R : forall name c (i : nat), table_col t name = Ok c -> (i < n)%nat ->
                exists s, cell t name (Z.of_nat i) = Ok s).
  { intros name c i H Hi. apply (cell_in_range t name c i H).
    rewrite (table_col_wf t name c W H). lia. }
  induction rows as [|i rows IH]; intros tab Hr.
  - exists tab. cbn. rewrite app_nil_r, Nat.add_0_r. auto.
  - apply Forall_cons in Hr as [Hi Hr].
    cbn [fmap list_fmap add_rows].
    destruct (R _ _ i Ha Hi) as [sa ->].
    destruct (R _ _ i Hb Hi) as [sb ->].
    destruct (R _ _ i Hc Hi) as [sc ->].
    destruct (R _ _ i Hd Hi) as [sd ->].
    cbn [mbind result_bind].
    destruct (IH (add_row tab sa sb sc sd o) Hr) as (tab' & Heq & Ho & Hw).
    exists tab'. split; [exact Heq|].
    cbn [add_row order wave] in Ho, Hw.
    rewrite Ho, Hw, <- app_assoc, length_app. cbn. split; [reflexivity|lia].
Qed.

Lemma range_of_nat (n : nat) : range (Z.of_nat n) = Z.of_nat <$> seq 0 n.
Proof. unfold range. now rewrite Nat2Z.id. Qed.

Lemma seq_bounded (n : nat) : Forall (fun i => (i < n)%nat) (seq 0 n).
Proof. apply Forall_forall. intros i Hi%elem_of_seq. lia. Qed.

Lemma zip_filter_length {A} (l : list A) (mask : list bool) :
  length l = length mask ->
  length (filter (fun p : A * bool => p.2 = true) (zip l mask))
  = count_true mask.
Proof.
  unfold count_true. revert mask.
  induction l as [|a l IH]; intros [|b mask] H; try discriminate; [reflexivity|].
  cbn [zip zip_with]. rewrite !filter_cons. cbn [snd].
  injection H as H. specialize (IH mask H).
  destruct b; repeat case_decide; try congruence; cbn; auto.
Qed.

Lemma col_filter_length (mask : list bool) (c : column) :
  length (col_scalars c) = length mask ->
  length (col_scalars (col_filter mask c)) = count_true mask.
Proof.
  destruct c as [l|l]; cbn; rewrite !length_fmap; apply zip_filter_length.
Qed.

Lemma table_mask_col (t : Table) (mask : list bool) (name : string) :
  table_col (table_mask t mask) name
  = match table_col t name with
    | Ok c => Ok (col_filter mask c)
    | Raise e => Raise e
    end.
Proof.
  induction t as [|[k c] t IH]; cbn; [reflexivity|].
  destruct (String.eqb k name); [reflexivity|exact IH].
Qed.

Lemma table_mask_has_column (t : Table) (mask : list bool) (name : string) :
  has_column (table_mask t mask) name = has_column t name.
Proof.
  unfold has_column. rewrite table_mask_col.
  now destruct (table_col t name).
Qed.

Lemma table_mask_expected (t : Table) (mask : list bool) :
  expected_columns (table_mask t mask) = expected_columns t.
Proof.
  unfold expected_columns. cbn. now rewrite !table_mask_has_column.
Qed.

Lemma table_wf_forall (t : Table) :
  table_wf t = true ->
  Forall (fun p : string * column =>
            length (col_scalars p.2) = table_len t) t.
Proof.
  unfold table_wf. intros H. apply Forall_forall. intros p Hp.
  rewrite forallb_forall in H. apply Nat.eqb_eq, H.
  now apply list_elem_of_In.
Qed.

Lemma table_mask_len (t : Table) (mask : list bool) :
  table_wf t = true -> length mask = table_len t -> t <> [] ->
  table_len (table_mask t mask) = count_true mask
  /\ table_wf (table_mask t mask) = true.
Proof.
  intros W L Hne. pose proof (table_wf_forall t W) as F.
  assert (G : Forall (fun p : string * column =>
                        length (col_scalars p.2) = count_true mask)
                     (table_mask t mask)).
  { unfold table_mask. apply Forall_fmap. eapply Forall_impl; [exact F|].
    intros [k c] H. cbn in *. apply col_filter_length. congruence. }
  assert (Len : table_len (table_mask t mask) = count_true mask).
  { destruct t as [|[k c] t]; [congruence|].
    apply Forall_cons in G as [G _]. exact G. }
  split; [exact Len|].
  unfold table_wf. rewrite Len. apply forallb_forall. intros p Hp.
  apply Nat.eqb_eq. rewrite Forall_forall in G. apply G.
  now apply list_elem_of_In.
Qed.

Lemma count_below_mask (c : column) :
  count_true (below_threshold c) = count_below c.
Proof.
  unfold count_true, count_below, below_threshold.
  induction (col_scalars c) as [|s l IH]; [reflexivity|].
  cbn [fmap list_fmap]. rewrite !filter_cons.
  repeat case_decide; try congruence; cbn; auto.
Qed.

(** C4. For two tables with the expected columns, the table produced has as
    many rows as the first table plus the rows of the second whose [wave] is
    strictly below 0.9; its [order] column is 1 on the rows of the first
    table and 2 on those of the second.  The same table is written to the
    destination. *)
Theorem exotep_row_count_and_order :
  forall (w : world) (filename1 filename2 filename : string)
         (table1 table2 : Table),
    csv_files w !! filename1 = Some table1 ->
    csv_files w !! filename2 = Some table2 ->
    expected_columns table1 = true -> table_wf table1 = true ->
    expected_columns table2 = true -> table_wf table2 = true ->
    exists (tab : Table) (w' : world) (wave2 : column),
      exotep_to_ers_format filename1 filename2 filename w = (Ok tab, w')
      /\ table_col table2 "wave" = Ok wave2
      /\ table_len tab = (table_len table1 + count_below wave2)%nat
      /\ table_col tab "order"
         = Ok (IntCol (replicate (table_len table1) 1
                       ++ replicate (count_below wave2) 2))
      /\ csv_files w' !! filename = Some tab.
Proof.
  intros w f1 f2 f t1 t2 H1 H2 E1 W1 E2 W2.
  destruct (add_rows_ok t1 1 (table_len t1) E1 W1 eq_refl
              (seq 0 (table_len t1)) ers_empty (seq_bounded _))
    as (tab1 & A1 & O1 & L1).
  assert (Hw : exists wave2, table_col t2 "wave" = Ok wave2).
  { apply has_column_col. unfold expected_columns in E2. cbn in E2.
    now apply andb_prop in E2 as [? _]. }
  destruct Hw as [wave2 Hw].
  assert (Hne : t2 <> []) by (intros ->; discriminate).
  pose proof (table_col_wf t2 "wave" wave2 W2 Hw) as Lw.
  assert (Lm : length (below_threshold wave2) = table_len t2).
  { unfold below_threshold. now rewrite length_fmap. }
  destruct (table_mask_len t2 (below_threshold wave2) W2 Lm Hne) as [Ls Ws].
  rewrite count_below_mask in Ls.
  pose proof (table_mask_expected t2 (below_threshold wave2)) as Es.
  rewrite E2 in Es.
  destruct (add_rows_ok (table_mask t2 (below_threshold wave2)) 2
              (count_below wave2) Es Ws Ls
              (seq 0 (count_below wave2)) tab1 (seq_bounded _))
    as (tab2 & A2 & O2 & L2).
  rewrite length_seq in *.
  exists (as_table tab2),
         (World (stdout w) (<[f := as_table tab2]> (csv_files w))
                (npy_files w)), wave2.
  split.
  - unfold exotep_to_ers_format, mbind, py_bind, read_csv, lift, write_csv,
      mret, py_ret.
    rewrite H1, H2, range_of_nat, A1, Hw, Ls, range_of_nat, A2. reflexivity.
  - split; [exact Hw|]. split; [|split].
    + cbn. rewrite length_fmap, L2, L1. cbn. reflexivity.
    + cbn. rewrite O2, O1. reflexivity.
    + cbn. apply lookup_insert_eq.
Qed.

Lemma exotep_row_count_and_order_witness :
  exists (tab : Table) (w' : world) (wave2 : column),
    exotep_to_ers_format "o1.csv" "o2.csv" "out.csv" two_files = (Ok tab, w')
    /\ table_col table_b "wave" = Ok wave2
    /\ table_len tab = (table_len table_a + count_below wave2)%nat
    /\ table_col tab "order"
       = Ok (IntCol (replicate (table_len table_a) 1
                     ++ replicate (count_below wave2) 2))
    /\ csv_files w' !! "out.csv" = Some tab.
Proof.
  apply (exotep_row_count_and_order two_files "o1.csv" "o2.csv" "out.csv"
           table_a table_b); reflexivity.
Defined.

Lemma table_col_raise (t : Table) (name : string) (e : exn) :
  table_col t name = Raise e -> e = KeyError name.
Proof.
  induction t as [|[k c] t IH]; cbn; [congruence|].
  destruct (String.eqb k name); [discriminate|exact IH].
Qed.

Lemma has_column_false (t : Table) (name : string) :
  has_column t name = false -> table_col t name = Raise (KeyError name).
Proof.
  unfold has_column. destruct (table_col t name) as [c|e] eqn:E; [discriminate|].
  intros _. now rewrite (table_col_raise t name e E).
Qed.

Lemma cell_missing (t : Table) (name : string) (i : Z) :
  has_column t name = false -> cell t name i = Raise (KeyError name).
Proof. intros H. unfold cell. now rewrite (has_column_false t name H). Qed.

Lemma cell_present (t : Table) (name : string) (i : nat) :
  table_wf t = true -> has_column t name = true -> (i < table_len t)%nat ->
  exists s, cell t name (Z.of_nat i) = Ok s.
Proof.
  intros W [c H]%has_column_col Hi. apply (cell_in_range t name c i H).
  rewrite (table_col_wf t name c W H). exact Hi.
Qed.

(** Converting a row of a table that lacks an expected column stops at the
    first such column, with the key error of the table library. *)
Lemma add_rows_missing (t : Table) (o : Z) (name : string) (i : nat)
    (rows : list Z) (tab : ers_table) :
  table_wf t = true -> first_missing t = Some name -> (i < table_len t)%nat ->
  add_rows t o (Z.of_nat i :: rows) tab = Raise (KeyError name).
Proof.
  intros W M Hi. cbn [add_rows].
  unfold first_missing, expected_names in M.
  rewrite !filter_cons, filter_nil in M.
  destruct (has_column t "wave") eqn:Ha.
  2:{ rewrite decide_True in M by reflexivity. injection M as <-.
      now rewrite (cell_missing t "wave" _ Ha). }
  rewrite decide_False in M by discriminate.
  destruct (cell_present t "wave" i W Ha Hi) as [sa ->]. cbn [mbind result_bind].
  destruct (has_column t "waveMin") eqn:Hb.
  2:{ rewrite decide_True in M by reflexivity. injection M as <-.
      now rewrite (cell_missing t "waveMin" _ Hb). }
  rewrite decide_False in M by discriminate.
  destruct (cell_present t "waveMin" i W Hb Hi) as [sb ->].
  cbn [mbind result_bind].
  destruct (has_column t "yval") eqn:Hc.
  2:{ rewrite decide_True in M by reflexivity. injection M as <-.
      now rewrite (cell_missing t "yval" _ Hc). }
  rewrite decide_False in M by discriminate.
  destruct (cell_present t "yval" i W Hc Hi) as [sc ->].
  cbn [mbind result_bind].
  destruct (has_column t "yerrLow") eqn:Hd.
  2:{ rewrite decide_True in M by reflexivity. injection M as <-.
      now rewrite (cell_missing t "yerrLow" _ Hd). }
  rewrite decide_False in M by discriminate. discriminate.
Qed.

Lemma first_missing_mask (t : Table) (mask : list bool) :
  first_missing (table_mask t mask) = first_missing t.
Proof.
  unfold first_missing, expected_names.
  rewrite !filter_cons, !table_mask_has_column. reflexivity.
Qed.

Lemma first_missing_wave (t : Table) (name : string) :
  first_missing t = Some name ->
  (name = "wave" /\ has_column t "wave" = false)
  \/ (name <> "wave" /\ has_column t "wave" = true).
Proof.
  unfold first_missing, expected_names. rewrite !filter_cons, filter_nil.
  destruct (has_column t "wave").
  - rewrite decide_False by discriminate. intros M. right. split; [|reflexivity].
    repeat case_decide; cbn in M; try discriminate;
      injection M as <-; discriminate.
  - rewrite decide_True by reflexivity. intros M. injection M as <-. now left.
Qed.

(** C5 (as the code has it). A table that lacks an expected column is not
    met by a schema check: as soon as a row of it is converted (the first
    table has a row; the second lacks [wave], or has a row with [wave] below
    0.9), the call raises the table library's [KeyError] for the first
    missing column in the order [wave], [waveMin], [yval], [yerrLow], and
    writes nothing. *)
Theorem exotep_missing_column_key_error :
  forall (w : world) (filename1 filename2 filename : string)
         (table1 table2 : Table) (name : string),
    csv_files w !! filename1 = Some table1 ->
    csv_files w !! filename2 = Some table2 ->
    table_wf table1 = true -> table_wf table2 = true ->
    (first_missing table1 = Some name /\ (0 < table_len table1)%nat)
    \/ (expected_columns table1 = true /\ first_missing table2 = Some name
        /\ (name = "wave"%string \/ (0 < rows_below table2)%nat)) ->
    exotep_to_ers_format filename1 filename2 filename w
      = (Raise (KeyError name), w)
    /\ classify (KeyError name) = KeyLookup
    /\ ~ raises (exotep_to_ers_format filename1 filename2 filename w).1
                SchemaMismatch.
Proof.
  intros w f1 f2 f t1 t2 name H1 H2 W1 W2 Hc.
  assert (E : exotep_to_ers_format f1 f2 f w = (Raise (KeyError name), w)).
  { unfold exotep_to_ers_format, mbind, py_bind, read_csv, lift.
    rewrite H1, H2.
    destruct Hc as [[M Hn]|(E1 & M & Hr)].
    - rewrite range_of_nat. destruct (table_len t1) as [|n] eqn:L; [lia|].
      cbn [seq fmap list_fmap].
      rewrite (add_rows_missing t1 1 name 0 _ _ W1 M) by lia. reflexivity.
    - destruct (add_rows_ok t1 1 (table_len t1) E1 W1 eq_refl
                  (seq 0 (table_len t1)) ers_empty (seq_bounded _))
        as (tab1 & A1 & _ & _).
      rewrite range_of_nat, A1.
      destruct (first_missing_wave t2 name M) as [[-> Hw]|[Hne Hw]].
      + now rewrite (has_column_false t2 "wave" Hw).
      + destruct Hr as [->|Hr]; [congruence|].
        destruct (has_column_col t2 "wave" Hw) as [wave2 Hw2].
        rewrite Hw2. unfold rows_below in Hr. rewrite Hw2 in Hr.
        fold (count_below wave2) in Hr.
        assert (Hne2 : t2 <> []) by (intros ->; discriminate).
        assert (Lm : length (below_threshold wave2) = table_len t2).
        { unfold below_threshold. rewrite length_fmap.
          apply (table_col_wf t2 "wave" wave2 W2 Hw2). }
        destruct (table_mask_len t2 (below_threshold wave2) W2 Lm Hne2)
          as [Ls Ws].
        rewrite count_below_mask in Ls. rewrite Ls, range_of_nat.
        destruct (count_below wave2) as [|k] eqn:Ek; [lia|].
        cbn [seq fmap list_fmap].
        rewrite (add_rows_missing _ 2 name 0 _ _ Ws); [reflexivity| |lia].
        now rewrite first_missing_mask. }
  split; [exact E|]. split; [reflexivity|].
  rewrite E. intros (e & He & Hcl). cbn in He. injection He as <-.
  discriminate.
Qed.

Lemma exotep_missing_column_key_error_witness :
  exotep_to_ers_format "o1.csv" "o2.csv" "out.csv" files_no_min
    = (Raise (KeyError "waveMin"), files_no_min)
  /\ classify (KeyError "waveMin") = KeyLookup
  /\ ~ raises (exotep_to_ers_format "o1.csv" "o2.csv" "out.csv"
                 files_no_min).1 SchemaMismatch.
Proof.
  apply (exotep_missing_column_key_error files_no_min "o1.csv" "o2.csv"
           "out.csv" table_no_min table_b "waveMin");
    [reflexivity|reflexivity|reflexivity|reflexivity|].
  left. split; [reflexivity|]. vm_compute. lia.
Defined.

(** C5 (as stated) fails: with [waveMin] missing from the first table the
    call ends in [KeyError], which is a key-lookup error, not a
    schema-mismatch error. *)
Lemma exotep_missing_column_not_schema_error :
  (exotep_to_ers_format "o1.csv" "o2.csv" "out.csv" files_no_min).1
    = Raise (KeyError "waveMin")
  /\ first_missing table_no_min = Some "waveMin"%string
  /\ ~ raises (exotep_to_ers_format "o1.csv" "o2.csv" "out.csv"
                 files_no_min).1 SchemaMismatch.
Proof.
  assert (E : (exotep_to_ers_format "o1.csv" "o2.csv" "out.csv"
                 files_no_min).1 = Raise (KeyError "waveMin"))
    by (vm_compute; reflexivity).
  split; [exact E|]. split; [reflexivity|].
  rewrite E. intros (e & He & Hcl). injection He as <-. discriminate.
Qed.

(** ** The body of scaling_image_regions, with [integrations] bound *)

Lemma session_lookup (frames : list (list (list float))) :
  load_global (session frames) "np" = Ok (PyModule "numpy")
  /\ load_global (session frames) "len" = Ok (PyFunction "len")
  /\ load_global (session frames) "integrations" = Ok (PyArray3 frames)
  /\ load_global (session frames) "tqdm" = Ok (PyFunction "tqdm.tqdm")
  /\ load_global (session frames) "range" = Ok (PyFunction "range").
Proof. repeat split; reflexivity. Qed.

Lemma rmap_ext {A B} (f g : A -> result B) (l : list A) :
  Forall (fun a => f a = g a) l -> rmap f l = rmap g l.
Proof.
  induction 1 as [|a l H _ IH]; cbn; [reflexivity|]. now rewrite H, IH.
Qed.

Lemma rmap_length {A B} (f : A -> result B) (l : list A) (bs : list B) :
  rmap f l = Ok bs -> length bs = length l.
Proof.
  revert bs. induction l as [|a l IH]; cbn; intros bs H.
  - now injection H as <-.
  - destruct (f a) as [b|e]; cbn in H; [|discriminate].
    destruct (rmap f l) as [bs'|e]; cbn in H; [|discriminate].
    injection H as <-. cbn. now rewrite (IH bs' eq_refl).
Qed.

Lemma store_in_range (pre post : list float) (x v : float) :
  store (pre ++ x :: post) (Z.of_nat (length pre)) v = Ok (pre ++ v :: post).
Proof.
  unfold store. rewrite length_app. cbn [length].
  destruct (Z.leb_spec 0 (Z.of_nat (length pre))) as [_|?]; [|lia].
  destruct (Z.ltb_spec (Z.of_nat (length pre))
              (Z.of_nat (length pre + S (length post)))) as [_|?]; [|lia].
  cbn. rewrite Nat2Z.id.
  f_equal. rewrite insert_app_r_alt by lia.
  now rewrite Nat.sub_diag.
Qed.

(** The loop over [j] stores one value per index and leaves the later
    entries of [scaling_vals] at their initial zero. *)
Lemma fit_loop_prefix (step : Z -> result float) (m : nat) :
  forall (pre : list float) (rest : nat),
    fit_loop step (Z.of_nat <$> seq (length pre) m)
             (pre ++ Np.zeros (m + rest))
    = (s ← rmap step (Z.of_nat <$> seq (length pre) m);
       Ok (pre ++ s ++ Np.zeros rest)).
Proof.
  induction m as [|m IH]; intros pre rest.
  - cbn. reflexivity.
  - cbn [seq fmap list_fmap fit_loop rmap].
    destruct (step (Z.of_nat (length pre))) as [v|e]; cbn [mbind result_bind];
      [|reflexivity].
    change (Np.zeros (S m + rest)) with (0%float :: Np.zeros (m + rest)).
    rewrite store_in_range. cbn [mbind result_bind].
    replace (pre ++ v :: Np.zeros (m + rest))
      with ((pre ++ [v]) ++ Np.zeros (m + rest))
      by now rewrite <- app_assoc.
    specialize (IH (pre ++ [v]) rest).
    rewrite length_app in IH. cbn [length] in IH.
    rewrite Nat.add_1_r in IH. rewrite IH.
    destruct (rmap step (Z.of_nat <$> seq (S (length pre)) m)) as [s|e];
      cbn [mbind result_bind]; [|reflexivity].
    now rewrite <- app_assoc.
Qed.

Lemma index_take {A} (l : list A) (k j : nat) :
  (j < k)%nat -> index (take k l) (Z.of_nat j) = index l (Z.of_nat j).
Proof.
  intros H. unfold index.
  destruct (Z.ltb_spec (Z.of_nat j) 0) as [?|_]; [lia|].
  destruct (Z.ltb_spec (Z.of_nat j) 0) as [?|_]; [lia|].
  rewrite Nat2Z.id. now rewrite lookup_take_lt.
Qed.

Lemma best_fit_take (frames : list (list (list float)))
    (bkg : list (list float)) (x1 x2 y1 y2 shape : Z) (vals : list float)
    (k j : nat) :
  (j < k)%nat ->
  best_fit (PyArray3 frames) bkg x1 x2 y1 y2 shape vals (Z.of_nat j)
  = best_fit (PyArray3 (take k frames)) bkg x1 x2 y1 y2 shape vals
             (Z.of_nat j).
Proof.
  intros H. unfold best_fit. f_equal.
  apply rmap_ext, Forall_forall. intros v _.
  unfold rms_at, frame_of. now rewrite index_take.
Qed.

Lemma slice_prefix {A} (l rest : list A) :
  slice (l ++ rest) 0 (Z.of_nat (length l)) = l.
Proof.
  unfold slice, slice_bound.
  change (0 <? 0) with false. cbv iota.
  destruct (Z.ltb_spec (Z.of_nat (length l)) 0) as [?|_]; [lia|].
  rewrite length_app, Z.min_l, Z.min_l by lia.
  change (Z.to_nat 0) with O.
  rewrite Nat2Z.id, Nat.sub_0_r, drop_0. now rewrite take_app_length.
Qed.

(** Where the preview goes wrong, for every input.  With the test flag set
    and at least five frames, once [integrations] resolves to the frames, the
    best-fit scale is computed for the first five frames only and those five
    values are printed, as intended; but line 66 takes the [nanmedian] of the
    whole array [scaling_vals], which line 47 created with one zero per frame:
    the zeros of the frames that were never fitted enter the median. *)
Theorem scaling_preview_median :
  forall (frames integraions : list (list (list float)))
         (bkg : list (list float)) (x1 x2 y1 y2 : Z) (vals : list float)
         (w : world),
    (5 <= length frames)%nat ->
    scaling_image_regions_in (session frames) integraions bkg x1 x2 y1 y2
                             vals true w
    = match rmap (best_fit (PyArray3 (take 5 frames)) bkg x1 x2 y1 y2
                           ((x2 - x1) * (y2 - y1)) vals) (range 5) with
      | Ok first5 =>
          (Ok (Np.nanmedian (first5 ++ Np.zeros (length frames - 5))),
           World (stdout w ++ [PrintArray first5]) (csv_files w)
                 (npy_files w))
      | Raise e => (Raise e, w)
      end.
Proof.
  intros frames integraions bkg x1 x2 y1 y2 vals w HN.
  destruct (session_lookup frames) as (Hnp & Hlen & Hint & Htq & Hrg).
  unfold scaling_image_regions_in, mbind, py_bind, lift.
  rewrite Hnp, Hlen, Hint, Htq, Hrg. cbn [len].
  rewrite Nat2Z.id.
  replace (length frames) with (5 + (length frames - 5))%nat at 1 by lia.
  change (range 5) with (Z.of_nat <$> seq (length (@nil float)) 5).
  rewrite (fit_loop_prefix _ 5 [] (length frames - 5)).
  set (step := best_fit (PyArray3 frames) bkg x1 x2 y1 y2
                        ((x2 - x1) * (y2 - y1)) vals).
  set (step5 := best_fit (PyArray3 (take 5 frames)) bkg x1 x2 y1 y2
                         ((x2 - x1) * (y2 - y1)) vals).
  assert (E : rmap step (Z.of_nat <$> seq (length (@nil float)) 5)
              = rmap step5 (Z.of_nat <$> seq (length (@nil float)) 5)).
  { apply rmap_ext. cbn.
    repeat constructor; unfold step, step5;
      match goal with
      | |- context [PyArray3 frames] =>
          match goal with
          | |- best_fit _ _ _ _ _ _ _ _ ?j = _ =>
              let n := eval vm_compute in (Z.to_nat j) in
              apply (best_fit_take frames bkg x1 x2 y1 y2 _ vals 5 n); lia
          end
      end. }
  rewrite E.
  destruct (rmap step5 (Z.of_nat <$> seq (length (@nil float)) 5))
    as [first5|e] eqn:R; cbn [mbind result_bind]; [|reflexivity].
  pose proof (rmap_length _ _ _ R) as L5. rewrite length_fmap, length_seq in L5.
  cbn [app]. unfold print, mret, py_ret.
  replace (slice (first5 ++ Np.zeros (length frames - 5)) 0 5) with first5.
  - reflexivity.
  - symmetry. change 5%Z with (Z.of_nat 5). rewrite <- L5.
    apply slice_prefix.
Qed.

Lemma scaling_preview_median_witness :
  scaling_image_regions_in (session frames10) [] ones5 0 5 0 5 grid6 true
                           empty_world
  = match rmap (best_fit (PyArray3 (take 5 frames10)) ones5 0 5 0 5
                         ((5 - 0) * (5 - 0)) grid6) (range 5) with
    | Ok first5 =>
        (Ok (Np.nanmedian (first5 ++ Np.zeros (length frames10 - 5))),
         World (stdout empty_world ++ [PrintArray first5])
               (csv_files empty_world) (npy_files empty_world))
    | Raise e => (Raise e, empty_world)
    end.
Proof.
  apply (scaling_preview_median frames10 [] ones5 0 5 0 5 grid6 empty_world).
  vm_compute. lia.
Defined.

(** C2.  The code on ten frames at 3.0 with the test flag set: the call
    raises [NameError]; and with [integrations] bound, the five best-fit
    scales are all 3.0, their median is 3.0, yet 1.5 is returned, the median
    of five values 3.0 and five zeros.  The docstring promises the median
    best-fit scaling value, which is what C2 states: the code is at fault,
    twice. *)
Lemma scaling_preview_not_median_of_five :
  (scaling_image_regions frames10 ones5 0 5 0 5 grid6 true empty_world).1
    = Raise (NameError "integrations")
  /\ rmap (best_fit (PyArray3 frames10) ones5 0 5 0 5 25 grid6) (range 5)
     = Ok [3; 3; 3; 3; 3]%float
  /\ Np.nanmedian [3; 3; 3; 3; 3]%float = 3%float
  /\ (scaling_image_regions_in (session frames10) frames10 ones5 0 5 0 5
        grid6 true empty_world).1 = Ok 1.5%float
  /\ (scaling_image_regions_in (session frames10) frames10 ones5 0 5 0 5
        grid6 true empty_world).1 <> Ok (Np.nanmedian [3; 3; 3; 3; 3]%float).
Proof.
  repeat split; try (vm_compute; reflexivity).
  vm_compute. intros H. discriminate H.
Qed.

(** *** No check of the region *)

Lemma slice_length {A} (l : list A) (a b : Z) :
  length (slice l a b)
  = Nat.min (slice_bound (length l) b - slice_bound (length l) a)
            (length l - slice_bound (length l) a).
Proof. unfold slice. now rewrite length_take, length_drop. Qed.

Lemma slice_fmap {A B} (f : A -> B) (l : list A) (a b : Z) :
  slice (f <$> l) a b = f <$> slice l a b.
Proof. unfold slice. now rewrite length_fmap, fmap_take, fmap_drop. Qed.

Lemma slice2_shape (a b : list (list float)) (x1 x2 y1 y2 : Z) :
  Np.row_lengths a = Np.row_lengths b ->
  Np.row_lengths (Np.slice2 a x1 x2 y1 y2)
  = Np.row_lengths (Np.slice2 b x1 x2 y1 y2).
Proof.
  unfold Np.row_lengths, Np.slice2. intros H.
  rewrite <- !list_fmap_compose.
  assert (E : forall c : list (list float),
             (length ∘ (fun row : list float => slice row y1 y2)) <$> c
             = (fun n => Nat.min (slice_bound n y2 - slice_bound n y1)
                                 (n - slice_bound n y1)) <$> (length <$> c)).
  { intros c. rewrite <- list_fmap_compose. apply list_fmap_ext.
    intros i row _. cbn. apply slice_length. }
  rewrite !E, <- !slice_fmap. now rewrite H.
Qed.

Lemma scale2_shape (a : list (list float)) (v : float) :
  Np.row_lengths (Np.scale2 a v) = Np.row_lengths a.
Proof.
  unfold Np.row_lengths, Np.scale2. rewrite <- list_fmap_compose.
  apply list_fmap_ext. intros i row _. cbn. apply length_fmap.
Qed.

Lemma rmap_total {A B} (f : A -> result B) (l : list A) :
  Forall (fun a => exists b, f a = Ok b) l -> exists bs, rmap f l = Ok bs.
Proof.
  induction 1 as [|a l [b Hb] _ [bs IH]]; cbn; [eauto|].
  rewrite Hb, IH. cbn. eauto.
Qed.

Lemma broadcast_same_length {A B C} (f : A -> B -> result C)
    (a : list A) (b : list B) :
  length a = length b ->
  Np.broadcast f a b = rmap (fun p => f p.1 p.2) (zip a b).
Proof. intros H. unfold Np.broadcast. now rewrite bool_decide_eq_true_2. Qed.

Lemma sub_rows_ok (r r' : list float) :
  length r = length r' ->
  exists d, Np.broadcast (fun x y => Ok (x - y)%float) r r' = Ok d.
Proof.
  intros H. rewrite broadcast_same_length by exact H.
  apply rmap_total, Forall_forall. intros p _. eauto.
Qed.

Lemma broadcastable_refl (n : nat) : Np.broadcastable n n = true.
Proof. unfold Np.broadcastable. now rewrite Nat.eqb_refl. Qed.

Lemma ncols_same_shape (a b : list (list float)) :
  Np.row_lengths a = Np.row_lengths b -> Np.ncols a = Np.ncols b.
Proof.
  unfold Np.row_lengths. destruct a, b; intros H; try discriminate;
    [reflexivity|]. now injection H.
Qed.

Lemma sub2_ok (w : nat) (a b : list (list float)) :
  Np.row_lengths a = Np.row_lengths b -> exists d, Np.sub2 w w a b = Ok d.
Proof.
  unfold Np.sub2, Np.row_lengths. intros H. rewrite broadcastable_refl.
  rewrite broadcast_same_length
    by (apply (f_equal length) in H; now rewrite !length_fmap in H).
  apply rmap_total. revert b H.
  induction a as [|r a IH]; intros [|r' b] H; try discriminate; cbn.
  - constructor.
  - injection H as Hr H. constructor; [|now apply IH].
    cbn. now apply sub_rows_ok.
Qed.

Lemma index_ok_in {A} (l : list A) (i : Z) (a : A) :
  index l i = Ok a -> In a l.
Proof.
  unfold index.
  destruct (_ <? 0); [discriminate|].
  destruct (l !! _) as [a'|] eqn:E; [|discriminate].
  intros H. injection H as <-. apply list_elem_of_In.
  eapply list_elem_of_lookup_2, E.
Qed.

Lemma rms_at_ok (frames : list (list (list float))) (bkg : list (list float))
    (x1 x2 y1 y2 shape : Z) (j : nat) (v : float) :
  forallb (fun frame => Np.same_shape frame bkg) frames = true ->
  (j < length frames)%nat ->
  exists r, rms_at (PyArray3 frames) bkg x1 x2 y1 y2 shape (Z.of_nat j) v
            = Ok r.
Proof.
  intros S Hj. unfold rms_at, frame_of.
  destruct (index_in_range frames j Hj) as [frame Hf].
  rewrite Hf. cbn [mbind result_bind].
  assert (Sf : Np.row_lengths frame = Np.row_lengths bkg).
  { rewrite forallb_forall in S.
    pose proof (index_ok_in _ _ _ Hf) as Hin.
    specialize (S frame Hin). unfold Np.same_shape in S.
    now apply bool_decide_eq_true_1 in S. }
  rewrite (ncols_same_shape frame bkg Sf).
  destruct (sub2_ok (Np.slice_width (Np.ncols bkg) y1 y2)
              (Np.slice2 frame x1 x2 y1 y2)
              (Np.scale2 (Np.slice2 bkg x1 x2 y1 y2) v)) as [d ->].
  - rewrite scale2_shape. now apply slice2_shape.
  - cbn. eauto.
Qed.

Lemma argmin_from_bound (l : list float) :
  forall (best : float) (besti i : nat),
    (besti < i)%nat ->
    (Np.argmin_from best besti i l < i + length l)%nat.
Proof.
  induction l as [|x l IH]; intros best besti i H; cbn [Np.argmin_from length].
  - lia.
  - destruct (Np.isnan best); [lia|].
    destruct (Np.isnan x || (x <? best)%float).
    + specialize (IH x i (S i)). lia.
    + specialize (IH best besti (S i)). lia.
Qed.

Lemma argmin_ok (l : list float) :
  l <> [] -> exists i, Np.argmin l = Ok i /\ (i < length l)%nat.
Proof.
  destruct l as [|x l]; [congruence|]. intros _. cbn [Np.argmin].
  eexists. split; [reflexivity|].
  pose proof (argmin_from_bound l x 0 1). cbn [length]. lia.
Qed.

Lemma best_fit_ok (frames : list (list (list float)))
    (bkg : list (list float)) (x1 x2 y1 y2 shape : Z) (vals : list float)
    (j : nat) :
  forallb (fun frame => Np.same_shape frame bkg) frames = true ->
  vals <> [] -> (j < length frames)%nat ->
  exists v, best_fit (PyArray3 frames) bkg x1 x2 y1 y2 shape vals
                     (Z.of_nat j) = Ok v.
Proof.
  intros S Hv Hj. unfold best_fit.
  destruct (rmap_total
              (rms_at (PyArray3 frames) bkg x1 x2 y1 y2 shape (Z.of_nat j))
              vals) as [rms Hr].
  { apply Forall_forall. intros v _. now apply rms_at_ok. }
  rewrite Hr. cbn [mbind result_bind].
  pose proof (rmap_length _ _ _ Hr) as L.
  destruct (argmin_ok rms) as (i & -> & Hi).
  { intros ->. destruct vals; [congruence|discriminate]. }
  cbn [mbind result_bind]. apply index_in_range. lia.
Qed.

(** C3 (as the code has it). The region is not checked: whatever the
    bounds, a malformed region ([x2 <= x1] or [y2 <= y1]) included, once
    [integrations] resolves to frames of the background's shape, with a
    candidate grid that is not empty and enough frames for the loop, the
    call raises nothing and returns a number. *)
Theorem scaling_region_unchecked :
  forall (frames integraions : list (list (list float)))
         (bkg : list (list float)) (x1 x2 y1 y2 : Z) (vals : list float)
         (test : bool) (w : world),
    forallb (fun frame => Np.same_shape frame bkg) frames = true ->
    vals <> [] ->
    (test = false \/ (5 <= length frames)%nat) ->
    exists (v : float) (w' : world),
      scaling_image_regions_in (session frames) integraions bkg x1 x2 y1 y2
                               vals test w = (Ok v, w').
Proof.
  intros frames integraions bkg x1 x2 y1 y2 vals test w S Hv Ht.
  destruct (session_lookup frames) as (Hnp & Hlen & Hint & Htq & Hrg).
  unfold scaling_image_regions_in, mbind, py_bind, lift.
  rewrite Hnp, Hlen, Hint, Htq, Hrg. cbn [len]. rewrite Nat2Z.id.
  set (step := best_fit (PyArray3 frames) bkg x1 x2 y1 y2
                        ((x2 - x1) * (y2 - y1)) vals).
  set (m := if test then 5%nat else length frames).
  assert (Hm : (m <= length frames)%nat)
    by (unfold m; destruct test; destruct Ht; try congruence; lia).
  assert (Hrange : range (if test then 5 else Z.of_nat (length frames))
                   = Z.of_nat <$> seq (length (@nil float)) m).
  { unfold m. destruct test; [reflexivity|apply range_of_nat]. }
  rewrite Hrange.
  replace (Np.zeros (length frames))
    with ([] ++ Np.zeros (m + (length frames - m)))
    by (cbn [app]; f_equal; lia).
  rewrite (fit_loop_prefix step m [] (length frames - m)).
  destruct (rmap_total step (Z.of_nat <$> seq (length (@nil float)) m))
    as [s ->].
  { apply Forall_fmap, Forall_forall. intros j Hj%elem_of_seq. cbn.
    apply best_fit_ok; [exact S|exact Hv|cbn in Hj; lia]. }
  cbn [mbind result_bind app].
  destruct test; unfold print, mret, py_ret; eauto.
Qed.

Lemma scaling_region_unchecked_witness :
  exists (v : float) (w' : world),
    scaling_image_regions_in (session frames10) [] ones5 0 0 0 5 grid6 false
                             empty_world = (Ok v, w').
Proof.
  apply (scaling_region_unchecked frames10 [] ones5 0 0 0 5 grid6 false
           empty_world).
  - vm_compute. reflexivity.
  - discriminate.
  - left. reflexivity.
Defined.

(** C3 (as stated) fails for the degenerate region [x1 = x2 = 0]: the call
    raises [NameError], which is no invalid-argument error; and with
    [integrations] bound the same call returns 0, the first candidate. *)
Lemma scaling_degenerate_region_not_rejected :
  (scaling_image_regions frames10 ones5 0 0 0 5 grid6 false empty_world).1
    = Raise (NameError "integrations")
  /\ ~ raises (scaling_image_regions frames10 ones5 0 0 0 5 grid6 false
                 empty_world).1 InvalidArgument
  /\ (scaling_image_regions_in (session frames10) frames10 ones5 0 0 0 5
        grid6 false empty_world).1 = Ok 0%float.
Proof.
  assert (E : (scaling_image_regions frames10 ones5 0 0 0 5 grid6 false
                 empty_world).1 = Raise (NameError "integrations"))
    by reflexivity.
  split; [exact E|]. split.
  - rewrite E. intros (e & He & Hc). injection He as <-. discriminate.
  - vm_compute. reflexivity.
Qed.


(** ** Binary64 facts

    What the normalisation of a constant series needs: a finite nonzero
    number divided by itself is 1, it equals itself, and half of its double
    gives it back unless the double overflows. *)

Lemma fexp_spec (z : Z) : fexp prec emax z = Z.max (z - 53) (-1074).
Proof. reflexivity. Qed.

Lemma valid_cases (m : positive) (e : Z) :
  bounded prec emax m e = true ->
  e <= 971 /\ -1074 <= e /\
  ((Z.pos (digits2_pos m) = 53) \/ (e = -1074 /\ Z.pos (digits2_pos m) < 53)).
Proof.
  unfold bounded, canonical_mantissa. rewrite fexp_spec.
  intros H. apply andb_prop in H as [H1 H2].
  apply Z.eqb_eq in H1. apply Z.leb_le in H2. unfold emax, prec in H2. lia.
Qed.

Lemma round_aux_exact (s : bool) (m : positive) (e : Z) :
  fexp prec emax (Z.pos (digits2_pos m) + e) = e -> e <= 971 ->
  binary_round_aux prec emax s (Z.pos m) e loc_Exact = S754_finite s m e.
Proof.
  intros Hf He. unfold binary_round_aux, shr_fexp.
  cbn [Zdigits2]. rewrite Hf, Z.sub_diag.
  cbn [shr shr_record_of_loc shr_m loc_of_shr_record round_nearest_even
       Zdigits2].
  rewrite Hf, Z.sub_diag. cbn [shr shr_m].
  destruct (Z.leb_spec e (emax - prec)) as [_|L]; [reflexivity|].
  unfold emax, prec in L. lia.
Qed.

Lemma round_aux_shift (s : bool) (m : positive) (e e1 : Z) :
  e1 = e + 1 ->
  fexp prec emax (Z.pos (digits2_pos m) + 1 + e) = e1 ->
  fexp prec emax (Z.pos (digits2_pos m) + e1) = e1 ->
  binary_round_aux prec emax s (Z.pos m~0) e loc_Exact
  = if e1 <=? 971 then S754_finite s m e1 else S754_infinity s.
Proof.
  intros -> Hf Hf'. unfold binary_round_aux, shr_fexp.
  cbn [Zdigits2 digits2_pos]. rewrite Pos2Z.inj_succ, <- Z.add_1_r, Hf.
  replace (e + 1 - e) with 1 by lia.
  cbn [shr shr_record_of_loc SpecFloat.iter_pos shr_1 orb shr_m loc_of_shr_record
       round_nearest_even Zdigits2].
  rewrite Hf', Z.sub_diag. cbn [shr shr_m]. reflexivity.
Qed.

Lemma binary_round_noshift (s : bool) (m : positive) (e : Z) :
  e <= fexp prec emax (Z.pos (digits2_pos m) + e) ->
  binary_round prec emax s m e
  = binary_round_aux prec emax s (Z.pos m) e loc_Exact.
Proof.
  intros H. unfold binary_round, shl_align.
  destruct (fexp prec emax (Z.pos (digits2_pos m) + e) - e) eqn:E;
    try reflexivity. lia.
Qed.

Lemma SF64add_self (s : bool) (m : positive) (e : Z) :
  bounded prec emax m e = true ->
  SF64add (S754_finite s m e) (S754_finite s m e)
  = if Z.pos (digits2_pos m) =? 53
    then (if e + 1 <=? 971 then S754_finite s m (e + 1) else S754_infinity s)
    else S754_finite s (m~0) e.
Proof.
  intros V. destruct (valid_cases m e V) as (He1 & He2 & Hd).
  unfold SF64add, SFadd. rewrite Z.min_id.
  unfold shl_align at 1 2. rewrite Z.sub_diag. cbn [fst].
  assert (R : binary_normalize prec emax
                (cond_Zopp s (Z.pos m) + cond_Zopp s (Z.pos m)) e false
              = binary_round prec emax s (m~0) e).
  { destruct s; unfold cond_Zopp.
    - replace (- Z.pos m + - Z.pos m) with (Z.neg m~0) by lia. reflexivity.
    - replace (Z.pos m + Z.pos m) with (Z.pos m~0) by lia. reflexivity. }
  rewrite R.
  assert (Dg : Z.pos (digits2_pos m~0) = Z.pos (digits2_pos m) + 1).
  { cbn [digits2_pos]. lia. }
  rewrite binary_round_noshift by (rewrite Dg, fexp_spec; lia).
  destruct Hd as [Hd|[-> Hd]].
  - rewrite Hd. rewrite Z.eqb_refl.
    apply round_aux_shift; [reflexivity| |]; rewrite Hd, fexp_spec; lia.
  - destruct (Z.eqb_spec (Z.pos (digits2_pos m)) 53) as [?|_]; [lia|].
    apply round_aux_exact; [|lia]. rewrite Dg, fexp_spec. lia.
Qed.

Lemma div_eucl_exact (a b q : Z) :
  0 < b -> a = q * b -> IntDef.Z.div_eucl a b = (q, 0).
Proof.
  intros Hb ->. change IntDef.Z.div_eucl with Z.div_eucl.
  pose proof (Z.div_eucl_eq (q * b) b ltac:(lia)) as E.
  pose proof (Z.mod_pos_bound (q * b) b Hb) as B.
  unfold Z.modulo in B.
  destruct (Z.div_eucl (q * b) b) as [q' r].
  assert (E' : (q - q') * b = r) by lia.
  assert (q - q' = 0) by nia.
  f_equal; lia.
Qed.

Lemma new_location_zero (k : Z) : new_location k 0 = loc_Exact.
Proof.
  unfold new_location, new_location_even, new_location_odd.
  destruct (Z.even k); reflexivity.
Qed.

Lemma div_two_core (m1 : positive) (e1 e' : Z) (k : positive) (q : Z) :
  Z.min (fexp prec emax (Z.pos (digits2_pos m1) + e1 - (53 + -51)))
        (e1 - -51) = e' ->
  e1 - -51 - e' = Z.pos k ->
  Z.pos m1 * 2 ^ Z.pos k = q * 4503599627370496 ->
  SFdiv_core_binary prec emax (Z.pos m1) e1 4503599627370496 (-51)
  = (q, e', loc_Exact).
Proof.
  intros He Hk Hq. unfold SFdiv_core_binary.
  cbn [Zdigits2].
  assert (D2 : Z.pos (digits2_pos 4503599627370496) = 53) by reflexivity.
  rewrite D2. change IntDef.Z.min with Z.min. rewrite He, Hk.
  rewrite (div_eucl_exact _ _ q).
  - now rewrite new_location_zero.
  - lia.
  - rewrite Z.shiftl_mul_pow2 by lia. exact Hq.
Qed.

Lemma pow2_53 : 2 ^ 53 = 2 * 4503599627370496.
Proof. reflexivity. Qed.
Lemma pow2_52 : 2 ^ 52 = 4503599627370496.
Proof. reflexivity. Qed.
Lemma pow2_51 : 2 * 2 ^ 51 = 4503599627370496.
Proof. reflexivity. Qed.

Lemma SF64div_two_normal (s : bool) (m : positive) (e : Z) :
  Z.pos (digits2_pos m) = 53 -> -1074 <= e -> e + 1 <= 971 ->
  SF64div (S754_finite s m (e + 1)) Np.SF_two = S754_finite s m e.
Proof.
  intros Hd He1 He2. unfold SF64div, SFdiv, Np.SF_two.
  rewrite xorb_false_r.
  destruct (Z.eq_dec e (-1074)) as [->|Hne].
  - rewrite (div_two_core m (-1074 + 1) (-1074) 52 (Z.pos m)).
    + apply round_aux_exact; [|lia]. rewrite Hd. reflexivity.
    + rewrite Hd. reflexivity.
    + reflexivity.
    + rewrite pow2_52. reflexivity.
  - rewrite (div_two_core m (e + 1) (e - 1) 53 (Z.pos m~0)).
    + rewrite (round_aux_shift s m (e - 1) e); try lia.
      * destruct (Z.leb_spec e 971); [reflexivity|lia].
      * rewrite Hd, fexp_spec. lia.
      * rewrite Hd, fexp_spec. lia.
    + rewrite Hd, fexp_spec. lia.
    + lia.
    + rewrite pow2_53. lia.
Qed.

Lemma SF64div_two_subnormal (s : bool) (m : positive) :
  Z.pos (digits2_pos m) < 53 ->
  SF64div (S754_finite s (m~0) (-1074)) Np.SF_two = S754_finite s m (-1074).
Proof.
  intros Hd. unfold SF64div, SFdiv, Np.SF_two. rewrite xorb_false_r.
  assert (Dg : Z.pos (digits2_pos m~0) = Z.pos (digits2_pos m) + 1).
  { cbn [digits2_pos]. lia. }
  rewrite (div_two_core (m~0) (-1074) (-1074) 51 (Z.pos m)).
  - apply round_aux_exact; [|lia]. rewrite fexp_spec. lia.
  - rewrite Dg, fexp_spec. lia.
  - reflexivity.
  - rewrite <- pow2_51. lia.
Qed.

Lemma half_of_double (v : float) (s : bool) (m : positive) (e : Z) :
  Prim2SF v = S754_finite s m e ->
  (exists s' m' e', Prim2SF (v + v)%float = S754_finite s' m' e') ->
  ((v + v) / 2)%float = v.
Proof.
  intros Hv (s' & m' & e' & Hf).
  apply Prim2SF_inj. rewrite div_spec.
  assert (T : Prim2SF 2 = Np.SF_two) by reflexivity. rewrite T.
  pose proof (Prim2SF_valid v) as V. rewrite Hv in V. cbn [valid_binary] in V.
  destruct (valid_cases m e V) as (He1 & He2 & Hd).
  rewrite add_spec, Hv, (SF64add_self s m e V) in Hf |- *.
  destruct Hd as [Hd|[-> Hd]].
  - rewrite Hd, Z.eqb_refl in Hf |- *.
    destruct (Z.leb_spec (e + 1) 971) as [L|L]; [|discriminate].
    now apply SF64div_two_normal.
  - destruct (Z.eqb_spec (Z.pos (digits2_pos m)) 53) as [?|_]; [lia|].
    now apply SF64div_two_subnormal.
Qed.

Lemma SF64div_self (s : bool) (m : positive) (e : Z) :
  SF64div (S754_finite s m e) (S754_finite s m e)
  = S754_finite false 4503599627370496 (-52).
Proof.
  unfold SF64div, SFdiv, SFdiv_core_binary. rewrite xorb_nilpotent.
  replace (Zdigits2 (Z.pos m) + e - (Zdigits2 (Z.pos m) + e)) with 0 by lia.
  rewrite Z.sub_diag.
  assert (E : Z.min (fexp prec emax 0) 0 = -53) by reflexivity.
  change IntDef.Z.min with Z.min. rewrite E.
  assert (E' : 0 - -53 = 53) by reflexivity. rewrite E'.
  rewrite (div_eucl_exact _ _ (2 ^ 53)).
  - rewrite new_location_zero. reflexivity.
  - lia.
  - rewrite Z.shiftl_mul_pow2 by lia. lia.
Qed.

Lemma finite_nonzero_inv (x : float) :
  Np.finite_nonzero x = true -> exists s m e, Prim2SF x = S754_finite s m e.
Proof.
  unfold Np.finite_nonzero. destruct (Prim2SF x); try discriminate. eauto.
Qed.

Lemma div_self (x : float) :
  Np.finite_nonzero x = true -> (x / x)%float = 1%float.
Proof.
  intros (s & m & e & H)%finite_nonzero_inv.
  apply Prim2SF_inj. rewrite div_spec, H, SF64div_self. reflexivity.
Qed.

Lemma finite_not_nan (x : float) :
  Np.finite_nonzero x = true -> Np.isnan x = false.
Proof.
  intros (s & m & e & H)%finite_nonzero_inv.
  unfold Np.isnan. rewrite FloatAxioms.eqb_spec, H. unfold SFeqb, SFcompare.
  rewrite Z.compare_refl, Pos.compare_cont_refl.
  destruct s; reflexivity.
Qed.

Lemma mean_of_two (v : float) :
  Np.normalisable v = true -> ((v + v) / 2)%float = v.
Proof.
  unfold Np.normalisable. intros [H1 H2]%andb_prop.
  apply finite_nonzero_inv in H1 as (s & m & e & H1).
  apply (half_of_double v s m e H1), finite_nonzero_inv, H2.
Qed.

(** ** Signs

    What the operations of the plotting loop do to the sign of a number:
    sums and quotients of numbers without a minus sign have none, and a
    square root is never below zero. *)

Lemma round_aux_sign (s : bool) (m e : Z) (l : location) :
  match binary_round_aux prec emax s m e l with
  | S754_zero s' | S754_infinity s' | S754_finite s' _ _ => s' = s
  | S754_nan => True
  end.
Proof.
  unfold binary_round_aux.
  destruct (shr_fexp prec emax m e l) as [mrs' e'].
  destruct (shr_fexp prec emax _ e' loc_Exact) as [mrs'' e''].
  destruct (shr_m mrs''); [reflexivity| |exact I].
  destruct (e'' <=? emax - prec); reflexivity.
Qed.

Lemma round_aux_unsigned (m e : Z) (l : location) :
  Np.SF_unsigned (binary_round_aux prec emax false m e l) = true.
Proof.
  pose proof (round_aux_sign false m e l) as H.
  destruct (binary_round_aux prec emax false m e l); cbn; subst; auto.
Qed.

Lemma round_aux_not_negative (m e : Z) (l : location) :
  Np.SF_negative (binary_round_aux prec emax false m e l) = false.
Proof.
  pose proof (round_aux_sign false m e l) as H.
  destruct (binary_round_aux prec emax false m e l); cbn; subst; auto.
Qed.

Lemma SFadd_unsigned (x y : spec_float) :
  Np.SF_unsigned x = true -> Np.SF_unsigned y = true ->
  Np.SF_unsigned (SFadd prec emax x y) = true.
Proof.
  destruct x as [[|]|[|]| |[|] mx ex], y as [[|]|[|]| |[|] my ey];
    cbn [Np.SF_unsigned negb]; intros Hx Hy; try discriminate;
    try reflexivity.
  unfold SFadd. cbn [cond_Zopp].
  set (a := (shl_align mx ex (Z.min ex ey)).1).
  set (b := (shl_align my ey (Z.min ex ey)).1).
  change (Z.pos a + Z.pos b)%Z with (Z.pos (a + b)).
  unfold binary_normalize, binary_round.
  destruct (shl_align (a + b) _ _) as [mz ez].
  apply round_aux_unsigned.
Qed.

Lemma SFdiv_unsigned (x y : spec_float) :
  Np.SF_unsigned x = true -> Np.SF_unsigned y = true ->
  Np.SF_unsigned (SFdiv prec emax x y) = true.
Proof.
  destruct x as [[|]|[|]| |[|] mx ex], y as [[|]|[|]| |[|] my ey];
    cbn [Np.SF_unsigned negb]; intros Hx Hy; try discriminate;
    try reflexivity.
  unfold SFdiv. cbn [xorb].
  destruct (SFdiv_core_binary prec emax _ _ _ _) as [[mz ez] lz].
  apply round_aux_unsigned.
Qed.

Lemma SFdiv_not_negative (x y : spec_float) :
  Np.SF_negative x = false -> Np.SF_unsigned y = true ->
  Np.SF_negative (SFdiv prec emax x y) = false.
Proof.
  destruct x as [[|]|[|]| |[|] mx ex], y as [[|]|[|]| |[|] my ey];
    cbn [Np.SF_unsigned Np.SF_negative negb]; intros Hx Hy;
    try discriminate; try reflexivity.
  unfold SFdiv. cbn [xorb].
  destruct (SFdiv_core_binary prec emax _ _ _ _) as [[mz ez] lz].
  apply round_aux_not_negative.
Qed.

Lemma SFsqrt_not_negative (x : spec_float) :
  Np.SF_negative (SFsqrt prec emax x) = false.
Proof.
  destruct x as [sx|[|]| |[|] mx ex]; try reflexivity.
  unfold SFsqrt.
  destruct (SFsqrt_core_binary prec emax _ _) as [[mz ez] lz].
  apply round_aux_not_negative.
Qed.

Lemma negative_spec (x : float) :
  Np.negative x = Np.SF_negative (Prim2SF x).
Proof.
  unfold Np.negative. rewrite ltb_spec, opp_spec.
  destruct (Prim2SF x) as [[|]|[|]| |[|] m e]; reflexivity.
Qed.

Lemma unsigned_add (a b : float) :
  Np.unsigned a = true -> Np.unsigned b = true ->
  Np.unsigned (a + b)%float = true.
Proof. unfold Np.unsigned. rewrite add_spec. apply SFadd_unsigned. Qed.

Lemma unsigned_div (a b : float) :
  Np.unsigned a = true -> Np.unsigned b = true ->
  Np.unsigned (a / b)%float = true.
Proof. unfold Np.unsigned. rewrite div_spec. apply SFdiv_unsigned. Qed.

Lemma unsigned_of_positive (v : float) :
  (0 <? v)%float = true -> Np.unsigned v = true.
Proof.
  unfold Np.unsigned. rewrite ltb_spec.
  change (Prim2SF 0) with (S754_zero false).
  destruct (Prim2SF v) as [s|[|]| |[|] m e]; cbn; congruence.
Qed.

(** An error bar [sqrt s / 1e6 / d] is not negative when [d] has no minus
    sign. *)
Lemma error_bar_not_negative (s d : float) :
  Np.unsigned d = true -> Np.negative (sqrt s / 1e6 / d)%float = false.
Proof.
  intros Hd. rewrite negative_spec, !div_spec, sqrt_spec.
  apply SFdiv_not_negative; [|exact Hd].
  apply SFdiv_not_negative; [apply SFsqrt_not_negative|reflexivity].
Qed.

Lemma unsigned_nansum (l : list float) :
  Forall (fun x => Np.unsigned x = true) l ->
  Np.unsigned (Np.nansum l) = true.
Proof.
  unfold Np.nansum. intros H.
  assert (G : forall acc, Np.unsigned acc = true ->
              Np.unsigned (foldl (fun acc x => if Np.isnan x then acc
                                               else (acc + x)%float) acc l)
              = true).
  { induction H as [|x l Hx _ IH]; intros acc Ha; [exact Ha|].
    cbn [foldl]. apply IH. destruct (Np.isnan x); [exact Ha|].
    now apply unsigned_add. }
  apply G. reflexivity.
Qed.

Lemma unsigned_insert_sorted (x : float) (l : list float) :
  Np.unsigned x = true -> Forall (fun x => Np.unsigned x = true) l ->
  Forall (fun x => Np.unsigned x = true) (Np.insert_sorted x l).
Proof.
  intros Hx. induction 1 as [|y l Hy Hl IH]; cbn [Np.insert_sorted].
  - repeat constructor. exact Hx.
  - destruct (x <=? y)%float; repeat constructor; auto.
Qed.

Lemma unsigned_sort (l : list float) :
  Forall (fun x => Np.unsigned x = true) l ->
  Forall (fun x => Np.unsigned x = true) (Np.sort l).
Proof.
  unfold Np.sort. induction 1 as [|x l Hx Hl IH]; cbn [foldr];
    [constructor|]. now apply unsigned_insert_sorted.
Qed.

(** The median of numbers without a minus sign has none. *)
Lemma unsigned_nanmedian (l : list float) :
  Forall (fun x => Np.unsigned x = true) l ->
  Np.unsigned (Np.nanmedian l) = true.
Proof.
  intros H. unfold Np.nanmedian, Np.median.
  assert (Hs : Forall (fun x => Np.unsigned x = true)
                 (Np.sort (filter (fun x => Np.isnan x = false) l))).
  { apply unsigned_sort, Forall_forall. intros x [_ Hx]%list_elem_of_filter.
    rewrite Forall_forall in H. now apply H. }
  set (s := Np.sort _) in *.
  assert (Hd : forall i, Np.unsigned (default nan (s !! i)) = true).
  { intros i. destruct (s !! i) as [x|] eqn:E; [|reflexivity].
    rewrite Forall_forall in Hs. apply Hs.
    eapply list_elem_of_lookup_2, E. }
  destruct (length s =? 0)%nat; [reflexivity|].
  destruct (Nat.odd (length s)); [apply Hd|].
  apply unsigned_div; [|reflexivity]. apply unsigned_add; apply Hd.
Qed.

(** ** stacked_transits on a constant flux *)

Lemma rmap_pure {A B} (g : A -> B) (l : list A) :
  rmap (fun a => Ok (g a)) l = Ok (g <$> l).
Proof.
  induction l as [|a l IH]; cbn; [reflexivity|]. now rewrite IH.
Qed.

Lemma broadcast_pure {A B C} (f : A -> B -> C) (a : list A) (b : list B) :
  length a = length b ->
  Np.broadcast (fun x y => Ok (f x y)) a b
  = Ok ((fun p : A * B => f p.1 p.2) <$> zip a b).
Proof.
  intros H. rewrite broadcast_same_length by exact H.
  apply (rmap_pure (fun p : A * B => f p.1 p.2)).
Qed.

Lemma rectangular_inv (a : list (list float)) (T W : nat) :
  rectangular a T W = true ->
  length a = T /\ Forall (fun r => length r = W) a.
Proof.
  unfold rectangular. intros [H1 H2]%andb_prop. split.
  - now apply Nat.eqb_eq.
  - apply Forall_forall. intros r Hr. rewrite forallb_forall in H2.
    apply Nat.eqb_eq, H2. now apply list_elem_of_In.
Qed.

Lemma nansum_axis0_length (a : list (list float)) (T W : nat) :
  rectangular a T W = true -> (0 < T)%nat ->
  length (Np.nansum_axis0 a) = W.
Proof.
  intros [L F]%rectangular_inv HT.
  destruct a as [|r a]; [cbn in L; lia|].
  apply Forall_cons in F as [Hr _].
  unfold Np.nansum_axis0. now rewrite length_fmap, length_seq.
Qed.

Lemma mask_indices_bounded (mask : list bool) :
  Forall (fun j => (j < length mask)%nat)
         (fst <$> filter (fun p : nat * bool => p.2 = true)
                         (zip (seq 0 (length mask)) mask)).
Proof.
  apply Forall_forall. intros j Hj.
  apply list_elem_of_fmap in Hj as ([j' b] & -> & Hp).
  apply list_elem_of_filter in Hp as [_ Hp].
  apply elem_of_zip_l, elem_of_seq in Hp. cbn. lia.
Qed.

(** On arrays of matching shapes the channel selection cannot fail, and it
    yields column indices. *)
Lemma channels_ok (wavelength : list float) (variance : list (list float))
    (T : nat) (center : float) :
  rectangular variance T (length wavelength) = true -> (0 < T)%nat ->
  exists q, channels wavelength variance center = Ok q
            /\ Forall (fun j => (j < length wavelength)%nat) q.
Proof.
  intros R HT. unfold channels.
  rewrite (broadcast_pure andb) by now rewrite !length_fmap.
  cbn [mbind result_bind].
  set (inwin := (fun p : bool * bool => p.1 && p.2) <$> _).
  assert (Li : length inwin = length wavelength).
  { unfold inwin. rewrite length_fmap, length_zip, !length_fmap. lia. }
  rewrite (broadcast_pure andb)
    by (rewrite length_fmap, (nansum_axis0_length _ _ _ R HT); exact Li).
  cbn [mbind result_bind].
  set (mask := (fun p : bool * bool => p.1 && p.2) <$> _).
  assert (Lm : length mask = length wavelength).
  { unfold mask. rewrite length_fmap, length_zip, length_fmap,
      (nansum_axis0_length _ _ _ R HT). lia. }
  eexists. split; [reflexivity|].
  rewrite <- Lm. apply mask_indices_bounded.
Qed.

Lemma take_row_const (W : nat) (c : float) (q : list nat) :
  Forall (fun j => (j < W)%nat) q ->
  rmap (fun j : nat => index (replicate W c) (Z.of_nat j)) q
  = Ok (replicate (length q) c).
Proof.
  induction 1 as [|j q Hj _ IH]; cbn [rmap]; [reflexivity|].
  assert (E : index (replicate W c) (Z.of_nat j) = Ok c).
  { unfold index.
    destruct (Z.ltb_spec (Z.of_nat j) 0) as [?|_]; [lia|].
    destruct (Z.ltb_spec (Z.of_nat j) 0) as [?|_]; [lia|].
    rewrite Nat2Z.id, lookup_replicate_2 by exact Hj. reflexivity. }
  rewrite E, IH. reflexivity.
Qed.

Lemma rmap_replicate {A B} (f : A -> result B) (a : A) (b : B) (n : nat) :
  f a = Ok b -> rmap f (replicate n a) = Ok (replicate n b).
Proof.
  intros H. induction n as [|n IH]; cbn; [reflexivity|]. now rewrite H, IH.
Qed.

Lemma take_columns_const (T W : nat) (c : float) (q : list nat) :
  Forall (fun j => (j < W)%nat) q ->
  take_columns (const_image T W c) q
  = Ok (replicate T (replicate (length q) c)).
Proof.
  intros H. unfold take_columns, const_image.
  apply rmap_replicate. now apply take_row_const.
Qed.

Lemma take_columns_ok (a : list (list float)) (T W : nat) (q : list nat) :
  rectangular a T W = true -> Forall (fun j => (j < W)%nat) q ->
  exists b, take_columns a q = Ok b /\ length b = T.
Proof.
  intros [L F]%rectangular_inv Hq. unfold take_columns.
  destruct (rmap_total
              (fun row : list float =>
                 rmap (fun j : nat => index row (Z.of_nat j)) q) a)
    as [b Hb].
  - eapply Forall_impl; [exact F|]. intros row Hrow. cbn in Hrow.
    apply rmap_total. eapply Forall_impl; [exact Hq|].
    intros j Hj. cbn in Hj. apply index_in_range. lia.
  - exists b. split; [exact Hb|]. rewrite (rmap_length _ _ _ Hb). exact L.
Qed.

Lemma filter_replicate_keep (v : float) (n : nat) :
  Np.isnan v = false ->
  filter (fun x => Np.isnan x = false) (replicate n v) = replicate n v.
Proof.
  intros H. induction n as [|n IH]; [reflexivity|].
  cbn [replicate]. rewrite filter_cons, decide_True by exact H.
  now rewrite IH.
Qed.

Lemma insert_sorted_replicate (v : float) (n : nat) :
  Np.insert_sorted v (replicate n v) = replicate (S n) v.
Proof.
  induction n as [|n IH]; [reflexivity|].
  cbn [replicate Np.insert_sorted]. destruct (v <=? v)%float; [reflexivity|].
  now rewrite IH.
Qed.

Lemma sort_replicate (v : float) (n : nat) :
  Np.sort (replicate n v) = replicate n v.
Proof.
  unfold Np.sort. induction n as [|n IH]; [reflexivity|].
  cbn [replicate foldr]. rewrite IH. apply insert_sorted_replicate.
Qed.

(** The median of a series whose samples all equal [v] is [v]. *)
Lemma nanmedian_replicate (v : float) (n : nat) :
  Np.normalisable v = true -> (0 < n)%nat ->
  Np.nanmedian (replicate n v) = v.
Proof.
  intros Hv Hn. pose proof Hv as [Hf _]%andb_prop.
  unfold Np.nanmedian.
  rewrite filter_replicate_keep by now apply finite_not_nan.
  unfold Np.median. rewrite sort_replicate, length_replicate.
  destruct (Nat.eqb_spec n 0) as [?|_]; [lia|].
  assert (Hh : (n / 2 < n)%nat) by (apply Nat.div_lt; lia).
  destruct (Nat.odd n).
  - now rewrite lookup_replicate_2.
  - rewrite !lookup_replicate_2 by lia. cbn [default].
    now apply mean_of_two.
Qed.

Lemma index_signed_ok {A} (l : list A) (i : Z) :
  (- Z.of_nat (length l) <= i < Z.of_nat (length l))%Z ->
  exists a, index l i = Ok a.
Proof.
  intros H. unfold index.
  set (j := if i <? 0 then i + Z.of_nat (length l) else i).
  assert (Hj : 0 <= j < Z.of_nat (length l))
    by (unfold j; destruct (Z.ltb_spec i 0); lia).
  destruct (Z.ltb_spec j 0) as [?|_]; [lia|].
  destruct (lookup_lt_is_Some_2 l (Z.to_nat j)) as [a ->]; [lia|eauto].
Qed.

Lemma series_of_app (l k : list artist) :
  series_of (l ++ k) = series_of l ++ series_of k.
Proof. apply omap_app. Qed.

(** What [ax.errorbar] accepts. *)
Lemma errorbar_ok (x y yerr : list float) (linestyle : string)
    (c : list float) (marker : string) (label : float) :
  length x = length y -> length yerr = length y ->
  Forall (fun e => Np.negative e = false) yerr ->
  valid_color c = true -> valid_linestyle linestyle = true ->
  errorbar x y yerr linestyle c marker label
  = Ok (Errorbar x y yerr linestyle c marker label).
Proof.
  intros Lx Le Hn Hc Hl. unfold errorbar.
  rewrite !bool_decide_eq_true_2 by assumption. rewrite Hc, Hl.
  assert (E : existsb Np.negative yerr = false).
  { clear -Hn. induction Hn as [|e yerr' He _ IH]; [reflexivity|].
    cbn [existsb]. now rewrite He, IH. }
  rewrite E. reflexivity.
Qed.

(** The error bars of one center, [sqrt s / 1e6] divided by the median of
    the summed flux, are not negative when that median has no minus sign. *)
Lemma error_bars_not_negative (sums : list float) (d : float) :
  Np.unsigned d = true ->
  Forall (fun e => Np.negative e = false)
         ((fun e => (e / d)%float)
            <$> ((fun s => (sqrt s / 1e6)%float) <$> sums)).
Proof.
  intros Hd. rewrite <- list_fmap_compose. apply Forall_fmap, Forall_forall.
  intros s _. cbn. now apply error_bar_not_negative.
Qed.

Lemma valid_color_row (colors : list (list float)) (i : Z) (c : list float) :
  forallb valid_color colors = true -> index colors i = Ok c ->
  valid_color c = true.
Proof.
  intros H Hc. rewrite forallb_forall in H. apply H.
  exact (index_ok_in _ _ _ Hc).
Qed.

(** One pass of the loop on a constant flux: the series drawn is flat at 1
    minus the current offset, and the offset moves down by the delta. *)
Lemma plot_center_const (colors : list (list float))
    (time wavelength : list float) (c : float)
    (variance : list (list float)) (offset_delta : float) (text : bool)
    (time_ind : Z) (linestyle : string) (st : loop_state) (center : float)
    (w : world) :
  (0 < length time)%nat ->
  rectangular variance (length time) (length wavelength) = true ->
  valid_linestyle linestyle = true ->
  forallb valid_color colors = true ->
  flat_at (summed_flux c (selected wavelength variance center)) = true ->
  (0 <= x st < Z.of_nat (length colors))%Z ->
  (text = false
   \/ (- Z.of_nat (length time) <= time_ind < Z.of_nat (length time))%Z) ->
  exists (st' : loop_state) (w' : world),
    plot_center colors time wavelength
      (const_image (length time) (length wavelength) c) variance
      offset_delta text time_ind linestyle st center w = (Ok st', w')
    /\ offset st' = (offset st - offset_delta)%float
    /\ x st' = (x st + 15)%Z
    /\ series_of (drawn st')
       = series_of (drawn st)
         ++ [replicate (length time) (1 - offset st)%float].
Proof.
  intros HT R Hls Hcs [Hv Hpos]%andb_prop Hx Htext.
  destruct (channels_ok wavelength variance (length time) center R HT)
    as (q & Hq & Bq).
  unfold selected in Hv, Hpos. rewrite Hq in Hv, Hpos.
  destruct (take_columns_ok variance _ _ q R Bq) as (vq & Hvq & Lvq).
  destruct (index_signed_ok colors (x st)) as [col Hcol]; [lia|].
  unfold plot_center, mbind, py_bind, lift, print, mret, py_ret.
  rewrite Hq, (take_columns_const _ _ c q Bq), Hvq, Hcol.
  set (v := summed_flux c (length q)) in *.
  assert (Espec : (fun s => s / 1e6)%float
                    <$> Np.nansum_axis1
                          (replicate (length time) (replicate (length q) c))
                  = replicate (length time) v).
  { unfold Np.nansum_axis1. now rewrite !fmap_replicate. }
  rewrite !Espec, !(nanmedian_replicate v _ Hv HT), !fmap_replicate.
  pose proof Hv as [Hf _]%andb_prop.
  rewrite !(div_self v Hf).
  rewrite errorbar_ok;
    [|now rewrite length_replicate
     |unfold Np.nansum_axis1; now rewrite length_replicate, !length_fmap
     |apply error_bars_not_negative, unsigned_of_positive; exact Hpos
     |exact (valid_color_row _ _ _ Hcs Hcol)
     |exact Hls].
  destruct text; cbn [mbind result_bind].
  - destruct Htext as [?|Hr]; [discriminate|].
    destruct (index_signed_ok time time_ind Hr) as [tx ->].
    eexists _, _. split; [reflexivity|]. cbn [offset x drawn].
    split; [reflexivity|]. split; [reflexivity|].
    rewrite series_of_app. reflexivity.
  - eexists _, _. split; [reflexivity|]. cbn [offset x drawn].
    split; [reflexivity|]. split; [reflexivity|].
    rewrite series_of_app. reflexivity.
Qed.

Lemma plot_centers_const (colors : list (list float))
    (time wavelength : list float) (c : float)
    (variance : list (list float)) (offset_delta : float) (text : bool)
    (time_ind : Z) (linestyle : string) (centers : list float) :
  (0 < length time)%nat ->
  rectangular variance (length time) (length wavelength) = true ->
  valid_linestyle linestyle = true ->
  forallb valid_color colors = true ->
  (text = false
   \/ (- Z.of_nat (length time) <= time_ind < Z.of_nat (length time))%Z) ->
  forallb (fun center =>
             flat_at (summed_flux c (selected wavelength variance center)))
          centers = true ->
  forall (st : loop_state) (w : world),
    (0 <= x st)%Z ->
    (x st + 15 * Z.of_nat (length centers)
     <= Z.of_nat (length colors) + 14)%Z ->
    exists (st' : loop_state) (w' : world),
      plot_centers
        (plot_center colors time wavelength
           (const_image (length time) (length wavelength) c) variance
           offset_delta text time_ind linestyle)
        centers st w = (Ok st', w')
      /\ series_of (drawn st')
         = series_of (drawn st)
           ++ ((fun o => replicate (length time) (1 - o)%float)
                 <$> offsets (offset st) offset_delta (length centers)).
Proof.
  intros HT R Hls Hcs Htext.
  induction centers as [|center centers IH]; intros Hn st w Hx Hc.
  - exists st, w. cbn. now rewrite app_nil_r.
  - cbn [forallb] in Hn. apply andb_prop in Hn as [Hv Hn].
    cbn [length] in Hc.
    destruct (plot_center_const colors time wavelength c variance
                offset_delta text time_ind linestyle st center w HT R Hls
                Hcs Hv)
      as (st1 & w1 & E1 & Ho & Hx1 & Hs1); [lia|exact Htext|].
    destruct (IH Hn st1 w1) as (st' & w' & E' & Hs'); [lia|lia|].
    exists st', w'. split.
    + cbn [plot_centers]. unfold mbind, py_bind. rewrite E1. exact E'.
    + rewrite Hs', Hs1, Ho, <- app_assoc. reflexivity.
Qed.

Lemma offsets_step (offset offset_delta : float) (n i : nat) (o : float) :
  offsets offset offset_delta n !! i = Some o -> (S i < n)%nat ->
  offsets offset offset_delta n !! S i = Some (o - offset_delta)%float.
Proof.
  revert offset i. induction n as [|n IH]; intros offset i H Hi; [lia|].
  destruct i as [|i].
  - cbn in H. injection H as <-. destruct n as [|n]; [lia|]. reflexivity.
  - cbn in H |- *. apply IH; [exact H|lia].
Qed.

Lemma strictly_decreasing_prefix (offset offset_delta : float) (n N : nat) :
  (n <= N)%nat ->
  strictly_decreasing (offsets offset offset_delta N) = true ->
  strictly_decreasing (offsets offset offset_delta n) = true.
Proof.
  revert offset N. induction n as [|n IH]; intros offset N Hle H;
    [reflexivity|].
  destruct n as [|n]; [reflexivity|].
  destruct N as [|[|N]]; [lia|lia|].
  change (offsets offset offset_delta (S (S N)))
    with (offset :: offsets (offset - offset_delta) offset_delta (S N)) in H.
  change (offsets offset offset_delta (S (S n)))
    with (offset :: offsets (offset - offset_delta) offset_delta (S n)).
  change (offsets (offset - offset_delta) offset_delta (S N))
    with ((offset - offset_delta)%float
            :: offsets (offset - offset_delta - offset_delta) offset_delta N)
    in H.
  change (offsets (offset - offset_delta) offset_delta (S n))
    with ((offset - offset_delta)%float
            :: offsets (offset - offset_delta - offset_delta) offset_delta n).
  cbn [strictly_decreasing] in H |- *.
  apply andb_prop in H as [H1 H2]. rewrite H1. cbn [andb].
  apply (IH (offset - offset_delta)%float (S N)); [lia|exact H2].
Qed.

(** C7 (as the code has it). For a flux that is constant across channels
    and time, on a call that matplotlib accepts (a positive figure size, a
    line style it knows, a table of RGB or RGBA colours that covers index
    15(n-1)), with a variance of the flux's shape, at least one time sample,
    and the annotation either off or inside the time axis: the call
    completes, and each series drawn is flat at 1.0 minus its assigned
    offset, provided the flux summed over the channels selected for that
    center and divided by 1e6 is finite and above zero (so at least one
    channel is selected and the flux is positive), with a finite double.
    The assigned offsets are [offset], [offset - offset_delta], ..., each
    the previous one minus [offset_delta] in binary64 arithmetic.  For the
    default offset 0.05 and delta 0.005 they are strictly decreasing,
    whatever the number of centers up to a thousand. *)
Theorem stacked_transits_constant_flux :
  forall (colors : list (list float)) (time wavelength : list float)
         (c : float) (variance : list (list float)) (centers : list float)
         (offset offset_delta : float) (figsize : Z * Z) (text : bool)
         (time_ind : Z) (linestyle : string) (w : world),
    (0 < length time)%nat ->
    rectangular variance (length time) (length wavelength) = true ->
    valid_figsize figsize = true ->
    valid_linestyle linestyle = true ->
    forallb valid_color colors = true ->
    (15 * length centers <= length colors + 14)%nat ->
    (text = false
     \/ (- Z.of_nat (length time) <= time_ind < Z.of_nat (length time))%Z) ->
    forallb (fun center =>
               flat_at (summed_flux c (selected wavelength variance center)))
            centers = true ->
    (exists (fig : figure) (w' : world),
        stacked_transits colors time wavelength
          (const_image (length time) (length wavelength) c) variance centers
          offset offset_delta figsize text time_ind linestyle w
        = (Ok fig, w')
        /\ series fig
           = (fun o => replicate (length time) (1 - o)%float)
               <$> offsets offset offset_delta (length centers))
    /\ (forall (i : nat) (o : float),
          offsets offset offset_delta (length centers) !! i = Some o ->
          (S i < length centers)%nat ->
          offsets offset offset_delta (length centers) !! S i
          = Some (o - offset_delta)%float)
    /\ (forall n : nat,
          (n <= 1000)%nat ->
          strictly_decreasing
            (offsets default_offset default_offset_delta n) = true).
Proof.
  intros colors time wavelength c variance centers offset0 delta figsize
         text time_ind linestyle w HT R Hfs Hls Hcs Hc Htext Hn.
  split; [|split].
  - destruct (plot_centers_const colors time wavelength c variance delta
                text time_ind linestyle centers HT R Hls Hcs Htext Hn
                (LoopState offset0 0 []) w) as (st' & w' & E & Hs).
    + cbn. lia.
    + cbn [x]. lia.
    + exists (Figure figsize "w" (drawn st')), w'. split.
      * unfold stacked_transits, subplots, mbind, py_bind, lift.
        rewrite Hfs, E. reflexivity.
      * unfold series. cbn [artists]. rewrite Hs. reflexivity.
  - intros i o. apply offsets_step.
  - intros n Hle.
    apply (strictly_decreasing_prefix _ _ n 1000 Hle).
    vm_compute. reflexivity.
Qed.

Lemma stacked_transits_constant_flux_witness :
  (exists (fig : figure) (w' : world),
      stacked_transits colors16 times4 waves3
        (const_image (length times4) (length waves3) 7) unit_variance
        [1.0; 1.2]%float 0.05 0.005 (8, 14)%Z false 230 "" empty_world
      = (Ok fig, w')
      /\ series fig
         = (fun o => replicate (length times4) (1 - o)%float)
             <$> offsets 0.05 0.005 (length [1.0; 1.2]%float))
  /\ (forall (i : nat) (o : float),
        offsets 0.05 0.005 (length [1.0; 1.2]%float) !! i = Some o ->
        (S i < length [1.0; 1.2]%float)%nat ->
        offsets 0.05 0.005 (length [1.0; 1.2]%float) !! S i
        = Some (o - 0.005)%float)
  /\ (forall n : nat,
        (n <= 1000)%nat ->
        strictly_decreasing
          (offsets default_offset default_offset_delta n) = true).
Proof.
  apply (stacked_transits_constant_flux colors16 times4 waves3 7
           unit_variance [1.0; 1.2]%float 0.05 0.005 (8, 14)%Z false 230 ""
           empty_world).
  - vm_compute. lia.
  - vm_compute. reflexivity.
  - reflexivity.
  - reflexivity.
  - vm_compute. reflexivity.
  - vm_compute. lia.
  - left. reflexivity.
  - vm_compute. reflexivity.
Defined.

(** C7 (as stated) fails.  Constant flux 7 on three channels between 1.0
    and 1.2 micron, unit variances: the window around the center 2.0 holds
    no channel, the summed flux is 0, and the series drawn for it is NaN
    throughout instead of flat at 1 - (0.05 - 0.005).  Constant flux -7
    passes the noise threshold as well, but every error bar is then
    negative and the call ends in [ValueError] with nothing drawn.  The
    offsets are not [offset - k * delta]: for the defaults the third one,
    0.05 - 0.005 - 0.005, differs from 0.05 - 2 * 0.005.  And they need not
    decrease: they stay put with [offset_delta = 0], and at the offset 1e20
    with the delta 1. *)
Lemma stacked_transits_empty_window_not_flat :
  (series <$> (stacked_transits colors16 times4 waves3 (const_image 4 3 7)
                 unit_variance [1.2; 2.0]%float 0.05 0.005 (8, 14)%Z false
                 230 "" empty_world).1)
    = Ok [replicate 4 (1 - 0.05)%float; replicate 4 nan]
  /\ selected waves3 unit_variance 2.0 = 0%nat
  /\ Np.isnan (1 - (0.05 - 0.005))%float = false
  /\ Np.isnan nan = true
  /\ (stacked_transits colors16 times4 waves3 (const_image 4 3 (-7))
        unit_variance [1.2]%float 0.05 0.005 (8, 14)%Z false 230 ""
        empty_world).1 = Raise ValueError
  /\ offsets 0.05 0.005 3
     = [0.05; 0.05 - 0.005; 0.05 - 0.005 - 0.005]%float
  /\ (0.05 - 0.005 - 0.005 =? 0.05 - 2 * 0.005)%float = false
  /\ strictly_decreasing (offsets 0.05 0 2) = false
  /\ strictly_decreasing (offsets 1e20 1 3) = false.
Proof. repeat split; vm_compute; reflexivity. Qed.

(** ** chromatic_writer *)


(** * Further properties *)

(** ** exotep_to_ers_format: files *)

(** X1. The two inputs are read before anything else happens: when one of them
    does not exist the call ends in [FileNotFoundError] for the first missing
    path (the second file is only tried when the first exists), whatever the
    first table holds; nothing is written. *)
Theorem exotep_missing_file :
  forall (w : world) (filename1 filename2 filename : string),
    csv_files w !! filename1 = None \/ csv_files w !! filename2 = None ->
    exotep_to_ers_format filename1 filename2 filename w
    = (Raise (FileNotFoundError
                match csv_files w !! filename1 with
                | None => filename1
                | Some _ => filename2
                end), w).
Proof.
  intros w f1 f2 f H.
  unfold exotep_to_ers_format, mbind, py_bind, read_csv.
  destruct (csv_files w !! f1) as [t1|]; [|reflexivity].
  destruct H as [H|H]; [discriminate|]. now rewrite H.
Qed.

Lemma exotep_missing_file_witness :
  exotep_to_ers_format "o1.csv" "o2.csv" "out.csv" files_second_only
  = (Raise (FileNotFoundError
              match csv_files files_second_only !! "o1.csv" with
              | None => "o1.csv"
              | Some _ => "o2.csv"
              end), files_second_only).
Proof.
  apply (exotep_missing_file files_second_only "o1.csv" "o2.csv" "out.csv").
  left. reflexivity.
Defined.

(** X2. A call that fails leaves the world as it was; a call that returns has
    changed one thing only: the destination file, which now holds the table
    returned, whatever it held before.  Nothing is printed. *)
Theorem exotep_writes_destination_only :
  forall (w w' : world) (filename1 filename2 filename : string)
         (r : result Table),
    exotep_to_ers_format filename1 filename2 filename w = (r, w') ->
    stdout w' = stdout w
    /\ npy_files w' = npy_files w
    /\ (forall other : string,
          other <> filename -> csv_files w' !! other = csv_files w !! other)
    /\ match r with
       | Ok tab => csv_files w' !! filename = Some tab
       | Raise _ => w' = w
       end.
Proof.
  intros w w' f1 f2 f r.
  unfold exotep_to_ers_format, mbind, py_bind, read_csv, lift, write_csv,
    mret, py_ret.
  destruct (csv_files w !! f1) as [t1|];
    [|intros E; injection E as <- <-; auto].
  destruct (csv_files w !! f2) as [t2|];
    [|intros E; injection E as <- <-; auto].
  destruct (add_rows t1 1 _ _) as [tab1|e];
    [|intros E; injection E as <- <-; auto].
  destruct (table_col t2 "wave") as [wave2|e];
    [|intros E; injection E as <- <-; auto].
  destruct (add_rows _ 2 _ _) as [tab2|e];
    [|intros E; injection E as <- <-; auto].
  intros E; injection E as <- <-. cbn.
  split; [reflexivity|]. split; [reflexivity|]. split.
  - intros other Hne. now apply lookup_insert_ne.
  - apply lookup_insert_eq.
Qed.

(** ** exotep_to_ers_format: what the rows hold *)

Lemma cell_at (t : Table) (name : string) (c : column) (i : nat)
    (s : scalar) :
  table_col t name = Ok c -> col_scalars c !! i = Some s ->
  cell t name (Z.of_nat i) = Ok s.
Proof.
  intros Hc Hs. unfold cell. rewrite Hc. cbn. unfold index.
  destruct (Z.ltb_spec (Z.of_nat i) 0) as [?|_]; [lia|].
  destruct (Z.ltb_spec (Z.of_nat i) 0) as [?|_]; [lia|].
  now rewrite Nat2Z.id, Hs.
Qed.

Lemma take_drop_step {A} (l : list A) (k m : nat) (a : A) :
  l !! k = Some a -> take (S m) (drop k l) = a :: take m (drop (S k) l).
Proof. intros H. now rewrite (drop_S l a k H). Qed.

(** One pass over the rows [k, k+m) appends, column by column, the cells of
    these rows converted to floats. *)
Lemma add_rows_content (t : Table) (o : Z) (ca cb cc cd : column) (n : nat) :
  table_col t "wave" = Ok ca -> table_col t "waveMin" = Ok cb ->
  table_col t "yval" = Ok cc -> table_col t "yerrLow" = Ok cd ->
  length (col_scalars ca) = n -> length (col_scalars cb) = n ->
  length (col_scalars cc) = n -> length (col_scalars cd) = n ->
  forall (m k : nat) (tab : ers_table),
    (k + m <= n)%nat ->
    add_rows t o (Z.of_nat <$> seq k m) tab
    = Ok (ErsTable
            (wave tab ++ (to_float <$> take m (drop k (col_scalars ca))))
            (wave_err tab ++ (to_float <$> take m (drop k (col_scalars cb))))
            (dppm tab ++ (to_float <$> take m (drop k (col_scalars cc))))
            (dppm_err tab ++ (to_float <$> take m (drop k (col_scalars cd))))
            (order tab ++ replicate m o)).
Proof.
  intros Ha Hb Hc Hd La Lb Lc Ld.
  induction m as [|m IH]; intros k tab Hk.
  - cbn. rewrite !app_nil_r. now destruct tab.
  - cbn [seq fmap list_fmap add_rows].
    destruct (lookup_lt_is_Some_2 (col_scalars ca) k) as [sa Sa]; [lia|].
    destruct (lookup_lt_is_Some_2 (col_scalars cb) k) as [sb Sb]; [lia|].
    destruct (lookup_lt_is_Some_2 (col_scalars cc) k) as [sc Sc]; [lia|].
    destruct (lookup_lt_is_Some_2 (col_scalars cd) k) as [sd Sd]; [lia|].
    rewrite (cell_at _ _ _ _ _ Ha Sa), (cell_at _ _ _ _ _ Hb Sb),
      (cell_at _ _ _ _ _ Hc Sc), (cell_at _ _ _ _ _ Hd Sd).
    cbn [mbind result_bind].
    rewrite (IH (S k) _ ltac:(lia)).
    rewrite (take_drop_step _ k m sa Sa), (take_drop_step _ k m sb Sb),
      (take_drop_step _ k m sc Sc), (take_drop_step _ k m sd Sd).
    cbn [add_row wave wave_err dppm dppm_err order fmap list_fmap replicate].
    rewrite <- !app_assoc. reflexivity.
Qed.

Lemma add_rows_all (t : Table) (o : Z) (ca cb cc cd : column)
    (tab : ers_table) :
  table_wf t = true ->
  table_col t "wave" = Ok ca -> table_col t "waveMin" = Ok cb ->
  table_col t "yval" = Ok cc -> table_col t "yerrLow" = Ok cd ->
  add_rows t o (range (Z.of_nat (table_len t))) tab
  = Ok (ErsTable (wave tab ++ col_floats ca) (wave_err tab ++ col_floats cb)
                 (dppm tab ++ col_floats cc) (dppm_err tab ++ col_floats cd)
                 (order tab ++ replicate (table_len t) o)).
Proof.
  intros W Ha Hb Hc Hd.
  pose proof (table_col_wf t _ _ W Ha) as La.
  pose proof (table_col_wf t _ _ W Hb) as Lb.
  pose proof (table_col_wf t _ _ W Hc) as Lc.
  pose proof (table_col_wf t _ _ W Hd) as Ld.
  rewrite range_of_nat.
  rewrite (add_rows_content t o ca cb cc cd (table_len t) Ha Hb Hc Hd
             La Lb Lc Ld (table_len t) 0 tab) by lia.
  unfold col_floats. rewrite !drop_0.
  rewrite !take_ge by lia. reflexivity.
Qed.

Lemma expected_columns_inv (t : Table) :
  expected_columns t = true ->
  exists ca cb cc cd,
    table_col t "wave" = Ok ca /\ table_col t "waveMin" = Ok cb
    /\ table_col t "yval" = Ok cc /\ table_col t "yerrLow" = Ok cd.
Proof.
  unfold expected_columns, expected_names. cbn [forallb]. intros E.
  apply andb_prop in E as [[ca Ha]%has_column_col E].
  apply andb_prop in E as [[cb Hb]%has_column_col E].
  apply andb_prop in E as [[cc Hc]%has_column_col E].
  apply andb_prop in E as [[cd Hd]%has_column_col _].
  eauto 10.
Qed.

Lemma exotep_result :
  forall (w : world) (filename1 filename2 filename : string)
         (table1 table2 : Table) (a1 b1 c1 d1 a2 b2 c2 d2 : column),
    csv_files w !! filename1 = Some table1 ->
    csv_files w !! filename2 = Some table2 ->
    table_wf table1 = true -> table_wf table2 = true ->
    table_col table1 "wave" = Ok a1 -> table_col table1 "waveMin" = Ok b1 ->
    table_col table1 "yval" = Ok c1 -> table_col table1 "yerrLow" = Ok d1 ->
    table_col table2 "wave" = Ok a2 -> table_col table2 "waveMin" = Ok b2 ->
    table_col table2 "yval" = Ok c2 -> table_col table2 "yerrLow" = Ok d2 ->
    let keep := col_filter (below_threshold a2) in
    (exotep_to_ers_format filename1 filename2 filename w).1
    = Ok [ ("wave", FloatCol (col_floats a1 ++ col_floats (keep a2)));
           ("wave_err", FloatCol (col_floats b1 ++ col_floats (keep b2)));
           ("dppm", FloatCol (col_floats c1 ++ col_floats (keep c2)));
           ("dppm_err", FloatCol (col_floats d1 ++ col_floats (keep d2)));
           ("order",
             IntCol (replicate (table_len table1) 1
                     ++ replicate (count_below a2) 2)) ]%string.
Proof.
  intros w f1 f2 f t1 t2 a1 b1 c1 d1 a2 b2 c2 d2 H1 H2 W1 W2
         Ha1 Hb1 Hc1 Hd1 Ha2 Hb2 Hc2 Hd2 keep.
  assert (Hne : t2 <> []) by (intros ->; discriminate).
  assert (Lm : length (below_threshold a2) = table_len t2).
  { unfold below_threshold. rewrite length_fmap.
    apply (table_col_wf t2 "wave" a2 W2 Ha2). }
  destruct (table_mask_len t2 (below_threshold a2) W2 Lm Hne) as [Ls Ws].
  rewrite count_below_mask in Ls.
  unfold exotep_to_ers_format, mbind, py_bind, read_csv, lift, write_csv,
    mret, py_ret.
  rewrite H1, H2.
  rewrite (add_rows_all t1 1 a1 b1 c1 d1 ers_empty W1 Ha1 Hb1 Hc1 Hd1).
  rewrite Ha2.
  rewrite (add_rows_all _ 2 (keep a2) (keep b2) (keep c2) (keep d2) _ Ws);
    try (rewrite table_mask_col;
         first [rewrite Ha2|rewrite Hb2|rewrite Hc2|rewrite Hd2];
         reflexivity).
  rewrite Ls. reflexivity.
Qed.

(** X3. The conversion keeps the data: the output columns [wave], [wave_err],
    [dppm], [dppm_err] hold the input columns [wave], [waveMin], [yval],
    [yerrLow] of the first table, followed by those of the second table
    restricted to the rows with [wave] below 0.9, in row order. *)
Theorem exotep_columns :
  forall (w : world) (filename1 filename2 filename : string)
         (table1 table2 : Table) (a1 b1 c1 d1 a2 b2 c2 d2 : column),
    csv_files w !! filename1 = Some table1 ->
    csv_files w !! filename2 = Some table2 ->
    table_wf table1 = true -> table_wf table2 = true ->
    table_col table1 "wave" = Ok a1 -> table_col table1 "waveMin" = Ok b1 ->
    table_col table1 "yval" = Ok c1 -> table_col table1 "yerrLow" = Ok d1 ->
    table_col table2 "wave" = Ok a2 -> table_col table2 "waveMin" = Ok b2 ->
    table_col table2 "yval" = Ok c2 -> table_col table2 "yerrLow" = Ok d2 ->
    let keep := col_filter (below_threshold a2) in
    (exotep_to_ers_format filename1 filename2 filename w).1
    = Ok [ ("wave", FloatCol (col_floats a1 ++ col_floats (keep a2)));
           ("wave_err", FloatCol (col_floats b1 ++ col_floats (keep b2)));
           ("dppm", FloatCol (col_floats c1 ++ col_floats (keep c2)));
           ("dppm_err", FloatCol (col_floats d1 ++ col_floats (keep d2)));
           ("order",
             IntCol (replicate (table_len table1) 1
                     ++ replicate (count_below a2) 2)) ]%string.
Proof. exact exotep_result. Qed.

Lemma exotep_columns_witness :
  (exotep_to_ers_format "o1.csv" "o2.csv" "out.csv" two_files).1
  = Ok [ ("wave", FloatCol [1.0; 1.1; 0.7]%float);
         ("wave_err", FloatCol [0.01; 0.01; 0.01]%float);
         ("dppm", FloatCol [100; 110; 90]%float);
         ("dppm_err", FloatCol [5; 6; 4]%float);
         ("order", IntCol [1; 1; 2]) ]%string.
Proof.
  apply (exotep_columns two_files "o1.csv" "o2.csv" "out.csv" table_a table_b
           (FloatCol [1.0; 1.1]%float) (FloatCol [0.01; 0.01]%float)
           (FloatCol [100; 110]%float) (FloatCol [5; 6]%float)
           (FloatCol [0.7; 0.95]%float) (FloatCol [0.01; 0.01]%float)
           (FloatCol [90; 95]%float) (FloatCol [4; 4]%float));
    reflexivity.
Defined.

Lemma kept_below (c : column) :
  Forall (fun x => (x <? 0.9)%float = true)
         (col_floats (col_filter (below_threshold c) c))
  /\ length (col_floats (col_filter (below_threshold c) c)) = count_below c.
Proof.
  unfold col_floats, below_threshold, count_below.
  destruct c as [l|l]; cbn [col_scalars col_filter].
  - induction l as [|x l [IH1 IH2]]; [split; [constructor|reflexivity]|].
    cbn [fmap list_fmap zip zip_with]. rewrite !filter_cons.
    cbn [snd to_float].
    destruct (x <? 0.9)%float eqn:E.
    + rewrite !decide_True by reflexivity. cbn [fmap list_fmap fst length].
      split; [constructor; [exact E|exact IH1]|now rewrite IH2].
    + rewrite !decide_False by discriminate. split; [exact IH1|exact IH2].
  - induction l as [|z l [IH1 IH2]]; [split; [constructor|reflexivity]|].
    cbn [fmap list_fmap zip zip_with]. rewrite !filter_cons.
    cbn [snd to_float].
    destruct (Np.of_int z <? 0.9)%float eqn:E.
    + rewrite !decide_True by reflexivity. cbn [fmap list_fmap fst length].
      split; [constructor; [exact E|exact IH1]|now rewrite IH2].
    + rewrite !decide_False by discriminate. split; [exact IH1|exact IH2].
Qed.

(** X4. The rows of the first table are kept without any filter; every row
    tagged 2 has a wavelength strictly below 0.9 (so none of them is NaN or
    at the threshold itself). *)
Theorem exotep_second_block_below_threshold :
  forall (w : world) (filename1 filename2 filename : string)
         (table1 table2 : Table),
    csv_files w !! filename1 = Some table1 ->
    csv_files w !! filename2 = Some table2 ->
    expected_columns table1 = true -> table_wf table1 = true ->
    expected_columns table2 = true -> table_wf table2 = true ->
    exists (tab : Table) (wave1 : column) (second : list float),
      (exotep_to_ers_format filename1 filename2 filename w).1 = Ok tab
      /\ table_col table1 "wave" = Ok wave1
      /\ table_col tab "wave" = Ok (FloatCol (col_floats wave1 ++ second))
      /\ table_col tab "order"
         = Ok (IntCol (replicate (length (col_floats wave1)) 1
                       ++ replicate (length second) 2))
      /\ Forall (fun x => (x <? 0.9)%float = true) second.
Proof.
  intros w f1 f2 f t1 t2 H1 H2 E1 W1 E2 W2.
  destruct (expected_columns_inv t1 E1) as (a1 & b1 & c1 & d1 & ? & ? & ? & ?).
  destruct (expected_columns_inv t2 E2) as (a2 & b2 & c2 & d2 & ? & ? & ? & ?).
  rewrite (exotep_result w f1 f2 f t1 t2 a1 b1 c1 d1 a2 b2 c2 d2) by assumption.
  destruct (kept_below a2) as [K1 K2].
  eexists _, a1, _. split; [reflexivity|]. split; [assumption|].
  split; [reflexivity|]. split; [|exact K1].
  cbn. rewrite K2. unfold col_floats. rewrite length_fmap.
  now rewrite (table_col_wf t1 "wave" a1 W1).
Qed.

Lemma exotep_second_block_below_threshold_witness :
  exists (tab : Table) (wave1 : column) (second : list float),
    (exotep_to_ers_format "o1.csv" "o2.csv" "out.csv" two_files).1 = Ok tab
    /\ table_col table_a "wave" = Ok wave1
    /\ table_col tab "wave" = Ok (FloatCol (col_floats wave1 ++ second))
    /\ table_col tab "order"
       = Ok (IntCol (replicate (length (col_floats wave1)) 1
                     ++ replicate (length second) 2))
    /\ Forall (fun x => (x <? 0.9)%float = true) second.
Proof.
  apply (exotep_second_block_below_threshold two_files "o1.csv" "o2.csv"
           "out.csv" table_a table_b); reflexivity.
Defined.

(** X5. A first table without rows is never looked into: whatever columns it
    has or lacks, the call succeeds, and the output is the second table
    restricted to the rows with [wave] below 0.9: its four data columns, cell
    by cell and in row order, and the tag 2 on every row. *)
Theorem exotep_empty_first_table :
  forall (w : world) (filename1 filename2 filename : string)
         (table1 table2 : Table) (a2 b2 c2 d2 : column),
    csv_files w !! filename1 = Some table1 ->
    csv_files w !! filename2 = Some table2 ->
    table_len table1 = 0%nat ->
    table_wf table2 = true ->
    table_col table2 "wave" = Ok a2 -> table_col table2 "waveMin" = Ok b2 ->
    table_col table2 "yval" = Ok c2 -> table_col table2 "yerrLow" = Ok d2 ->
    let keep := col_filter (below_threshold a2) in
    (exotep_to_ers_format filename1 filename2 filename w).1
    = Ok [ ("wave", FloatCol (col_floats (keep a2)));
           ("wave_err", FloatCol (col_floats (keep b2)));
           ("dppm", FloatCol (col_floats (keep c2)));
           ("dppm_err", FloatCol (col_floats (keep d2)));
           ("order", IntCol (replicate (count_below a2) 2)) ]%string
    /\ Forall (fun x => (x <? 0.9)%float = true) (col_floats (keep a2))
    /\ length (col_floats (keep a2)) = count_below a2.
Proof.
  intros w f1 f2 f t1 t2 a2 b2 c2 d2 H1 H2 L1 W2 Ha Hb Hc Hd keep.
  assert (Hne : t2 <> []) by (intros ->; discriminate).
  assert (Lm : length (below_threshold a2) = table_len t2).
  { unfold below_threshold. rewrite length_fmap.
    apply (table_col_wf t2 "wave" a2 W2 Ha). }
  destruct (table_mask_len t2 (below_threshold a2) W2 Lm Hne) as [Ls Ws].
  rewrite count_below_mask in Ls.
  split; [|exact (kept_below a2)].
  unfold exotep_to_ers_format, mbind, py_bind, read_csv, lift, write_csv,
    mret, py_ret.
  rewrite H1, H2, L1. change (range (Z.of_nat 0)) with (@nil Z).
  cbn [add_rows].
  rewrite Ha.
  rewrite (add_rows_all _ 2 (keep a2) (keep b2) (keep c2) (keep d2) _ Ws);
    try (rewrite table_mask_col;
         first [rewrite Ha|rewrite Hb|rewrite Hc|rewrite Hd]; reflexivity).
  rewrite Ls. reflexivity.
Qed.

Lemma exotep_empty_first_table_witness :
  (exotep_to_ers_format "o1.csv" "o2.csv" "out.csv" files_empty_first).1
  = Ok [ ("wave", FloatCol [0.7]%float);
         ("wave_err", FloatCol [0.01]%float);
         ("dppm", FloatCol [90]%float);
         ("dppm_err", FloatCol [4]%float);
         ("order", IntCol [2]) ]%string.
Proof.
  apply (exotep_empty_first_table files_empty_first "o1.csv" "o2.csv"
           "out.csv" table_empty table_b
           (FloatCol [0.7; 0.95]%float) (FloatCol [0.01; 0.01]%float)
           (FloatCol [90; 95]%float) (FloatCol [4; 4]%float));
    reflexivity.
Defined.

Lemma exotep_writes_destination_only_witness :
  stdout (exotep_to_ers_format "o1.csv" "o2.csv" "out.csv" two_files).2
    = stdout two_files
  /\ npy_files (exotep_to_ers_format "o1.csv" "o2.csv" "out.csv" two_files).2
     = npy_files two_files
  /\ (forall other : string,
        other <> "out.csv"%string ->
        csv_files (exotep_to_ers_format "o1.csv" "o2.csv" "out.csv"
                     two_files).2 !! other
        = csv_files two_files !! other)
  /\ match (exotep_to_ers_format "o1.csv" "o2.csv" "out.csv" two_files).1
     with
     | Ok tab =>
         csv_files (exotep_to_ers_format "o1.csv" "o2.csv" "out.csv"
                      two_files).2 !! "out.csv" = Some tab
     | Raise _ =>
         (exotep_to_ers_format "o1.csv" "o2.csv" "out.csv" two_files).2
         = two_files
     end.
Proof.
  apply (exotep_writes_destination_only two_files _ "o1.csv" "o2.csv"
           "out.csv"). apply surjective_pairing.
Defined.

(** ** scaling_image_regions: the full run, and its edges *)

Lemma best_fit_member (integrations : pyobj) (bkg : list (list float))
    (x1 x2 y1 y2 shape : Z) (vals : list float) (j : Z) (v : float) :
  best_fit integrations bkg x1 x2 y1 y2 shape vals j = Ok v -> v ∈ vals.
Proof.
  unfold best_fit.
  destruct (rmap _ vals) as [rms|e]; cbn [mbind result_bind]; [|discriminate].
  destruct (Np.argmin rms) as [i|e]; cbn [mbind result_bind]; [|discriminate].
  intros H. apply list_elem_of_In. exact (index_ok_in _ _ _ H).
Qed.

Lemma rmap_Forall {A B} (f : A -> result B) (P : B -> Prop) (l : list A) :
  (forall a b, f a = Ok b -> P b) ->
  forall bs, rmap f l = Ok bs -> Forall P bs.
Proof.
  intros HP. induction l as [|a l IH]; cbn; intros bs H.
  - injection H as <-. constructor.
  - destruct (f a) as [b|e] eqn:E; cbn in H; [|discriminate].
    destruct (rmap f l) as [bs'|e]; cbn in H; [|discriminate].
    injection H as <-. constructor; [now apply (HP a)|now apply IH].
Qed.

(** With the test flag off the loop visits every frame. *)
Lemma scaling_full_eq (frames integraions : list (list (list float)))
    (bkg : list (list float)) (x1 x2 y1 y2 : Z) (vals : list float)
    (w : world) :
  scaling_image_regions_in (session frames) integraions bkg x1 x2 y1 y2 vals
                           false w
  = match rmap (best_fit (PyArray3 frames) bkg x1 x2 y1 y2
                         ((x2 - x1) * (y2 - y1)) vals)
               (range (Z.of_nat (length frames))) with
    | Ok fits => (Ok (Np.nanmedian fits), w)
    | Raise e => (Raise e, w)
    end.
Proof.
  destruct (session_lookup frames) as (Hnp & Hlen & Hint & Htq & Hrg).
  unfold scaling_image_regions_in, mbind, py_bind, lift.
  rewrite Hnp, Hlen, Hint, Htq, Hrg. cbn [len]. rewrite Nat2Z.id.
  rewrite range_of_nat.
  change (seq 0 (length frames))
    with (seq (length (@nil float)) (length frames)).
  replace (Np.zeros (length frames))
    with ([] ++ Np.zeros (length frames + 0))
    by (cbn [app]; f_equal; lia).
  rewrite (fit_loop_prefix _ (length frames) [] 0).
  destruct (rmap _ _) as [fits|e]; cbn [mbind result_bind]; [|reflexivity].
  cbn [app Np.zeros replicate]. rewrite app_nil_r. reflexivity.
Qed.

(** X6. With the test flag off and [integrations] resolved, the value returned
    is the [nanmedian] of one best-fit value per frame, each of them one of
    the candidates in [vals]; nothing is printed or written, and the frames
    passed as first argument are not consulted. *)
Theorem scaling_full_median :
  forall (frames integraions : list (list (list float)))
         (bkg : list (list float)) (x1 x2 y1 y2 : Z) (vals : list float)
         (w : world),
    scaling_image_regions_in (session frames) integraions bkg x1 x2 y1 y2
                             vals false w
    = match rmap (best_fit (PyArray3 frames) bkg x1 x2 y1 y2
                           ((x2 - x1) * (y2 - y1)) vals)
                 (range (Z.of_nat (length frames))) with
      | Ok fits => (Ok (Np.nanmedian fits), w)
      | Raise e => (Raise e, w)
      end
    /\ (forall fits,
          rmap (best_fit (PyArray3 frames) bkg x1 x2 y1 y2
                         ((x2 - x1) * (y2 - y1)) vals)
               (range (Z.of_nat (length frames))) = Ok fits ->
          length fits = length frames /\ Forall (fun v => v ∈ vals) fits).
Proof.
  intros. split; [apply scaling_full_eq|].
  intros fits H. split.
  - rewrite (rmap_length _ _ _ H), range_of_nat, length_fmap, length_seq.
    reflexivity.
  - eapply rmap_Forall; [|exact H]. intros j v. apply best_fit_member.
Qed.

Lemma fit_loop_app (step : Z -> result float) (js js' : list Z)
    (scaling_vals : list float) :
  fit_loop step (js ++ js') scaling_vals
  = (fit_loop step js scaling_vals ≫= fit_loop step js').
Proof.
  revert scaling_vals. induction js as [|j js IH]; intros sv; [reflexivity|].
  cbn [app fit_loop]. destruct (step j) as [v|e]; cbn; [|reflexivity].
  destruct (store sv j v) as [sv'|e]; cbn; [|reflexivity]. apply IH.
Qed.

Lemma best_fit_out_of_range (frames : list (list (list float)))
    (bkg : list (list float)) (x1 x2 y1 y2 shape : Z) (vals : list float)
    (j : nat) :
  vals <> [] -> (length frames <= j)%nat ->
  best_fit (PyArray3 frames) bkg x1 x2 y1 y2 shape vals (Z.of_nat j)
  = Raise IndexError.
Proof.
  intros Hv Hj. destruct vals as [|v vals]; [congruence|].
  assert (E : rms_at (PyArray3 frames) bkg x1 x2 y1 y2 shape (Z.of_nat j) v
              = Raise IndexError).
  { unfold rms_at, frame_of, index.
    destruct (Z.ltb_spec (Z.of_nat j) 0) as [?|_]; [lia|].
    destruct (Z.ltb_spec (Z.of_nat j) 0) as [?|_]; [lia|].
    rewrite Nat2Z.id, lookup_ge_None_2 by exact Hj. reflexivity. }
  unfold best_fit. cbn [rmap]. rewrite E. reflexivity.
Qed.

(** X7. The test flag (the default) makes the loop run five times: with fewer
    than five frames it reads past the last one and the call ends in
    [IndexError], with nothing printed. *)
Theorem scaling_preview_needs_five_frames :
  forall (frames integraions : list (list (list float)))
         (bkg : list (list float)) (x1 x2 y1 y2 : Z) (vals : list float)
         (w : world),
    (length frames < 5)%nat ->
    forallb (fun frame => Np.same_shape frame bkg) frames = true ->
    vals <> [] ->
    scaling_image_regions_in (session frames) integraions bkg x1 x2 y1 y2
                             vals true w
    = (Raise IndexError, w).
Proof.
  intros frames integraions bkg x1 x2 y1 y2 vals w HN Hs Hv.
  destruct (session_lookup frames) as (Hnp & Hlen & Hint & Htq & Hrg).
  unfold scaling_image_regions_in, mbind, py_bind, lift.
  rewrite Hnp, Hlen, Hint, Htq, Hrg. cbn [len]. rewrite Nat2Z.id.
  set (step := best_fit (PyArray3 frames) bkg x1 x2 y1 y2
                        ((x2 - x1) * (y2 - y1)) vals).
  set (N := length frames) in *.
  assert (Hr : range 5 = (Z.of_nat <$> seq (length (@nil float)) N)
                         ++ Z.of_nat N
                            :: (Z.of_nat <$> seq (S N) (4 - N))).
  { change (range 5) with (Z.of_nat <$> seq 0 5).
    replace 5%nat with (N + S (4 - N))%nat at 1 by lia.
    rewrite seq_app, fmap_app. reflexivity. }
  rewrite Hr, fit_loop_app.
  replace (Np.zeros N) with ([] ++ Np.zeros (N + 0))
    by (cbn [app]; f_equal; lia).
  rewrite (fit_loop_prefix step N [] 0).
  destruct (rmap_total step (Z.of_nat <$> seq (length (@nil float)) N))
    as [s ->].
  { apply Forall_fmap, Forall_forall. intros j Hj%elem_of_seq. cbn.
    apply best_fit_ok; [exact Hs|exact Hv|cbn in Hj; lia]. }
  cbn [mbind result_bind fit_loop].
  assert (E : step (Z.of_nat N) = Raise IndexError)
    by (apply best_fit_out_of_range; [exact Hv|unfold N; lia]).
  rewrite E. reflexivity.
Qed.

Lemma scaling_preview_needs_five_frames_witness :
  scaling_image_regions_in (session frames3) [] ones5 0 5 0 5 grid6 true
                           empty_world
  = (Raise IndexError, empty_world).
Proof.
  apply (scaling_preview_needs_five_frames frames3 [] ones5 0 5 0 5 grid6
           empty_world).
  - vm_compute. lia.
  - vm_compute. reflexivity.
  - discriminate.
Defined.

(** X8. An empty candidate grid is met by no check of its own: as soon as the
    loop runs once (test flag on, or at least one frame) [np.argmin] is
    applied to an empty array and the call ends in [ValueError], whatever
    the frames and the region are. *)
Theorem scaling_empty_grid :
  forall (frames integraions : list (list (list float)))
         (bkg : list (list float)) (x1 x2 y1 y2 : Z) (test : bool)
         (w : world),
    test = true \/ frames <> [] ->
    scaling_image_regions_in (session frames) integraions bkg x1 x2 y1 y2
                             [] test w
    = (Raise ValueError, w).
Proof.
  intros frames integraions bkg x1 x2 y1 y2 test w H.
  destruct (session_lookup frames) as (Hnp & Hlen & Hint & Htq & Hrg).
  unfold scaling_image_regions_in, mbind, py_bind, lift.
  rewrite Hnp, Hlen, Hint, Htq, Hrg. cbn [len].
  assert (Hr : exists j js,
             range (if test then 5 else Z.of_nat (length frames)) = j :: js).
  { destruct test.
    - eexists _, _. reflexivity.
    - destruct H as [?|H]; [discriminate|].
      destruct frames as [|fr frames]; [congruence|].
      rewrite range_of_nat. cbn [length seq fmap list_fmap]. eauto. }
  destruct Hr as (j & js & ->). reflexivity.
Qed.

Lemma scaling_empty_grid_witness :
  scaling_image_regions_in (session frames10) [] ones5 0 5 0 5 [] false
                           empty_world
  = (Raise ValueError, empty_world).
Proof.
  apply (scaling_empty_grid frames10 [] ones5 0 5 0 5 false empty_world).
  right. discriminate.
Defined.

Lemma slice_empty {A} (l : list A) (a : Z) : slice l a a = [].
Proof. unfold slice. now rewrite Nat.sub_diag. Qed.

Lemma slice2_empty_rows (a : list (list float)) (x y1 y2 : Z) :
  Np.slice2 a x x y1 y2 = [].
Proof. unfold Np.slice2. now rewrite slice_empty. Qed.

Lemma slice2_empty_columns (a : list (list float)) (x1 x2 y : Z) :
  Np.slice2 a x1 x2 y y = replicate (length (slice a x1 x2)) [].
Proof.
  unfold Np.slice2. induction (slice a x1 x2) as [|r l IH]; [reflexivity|].
  cbn [fmap list_fmap length replicate]. rewrite slice_empty.
  f_equal. exact IH.
Qed.

Lemma sub2_empty_rows (w k : nat) (v : float) :
  Np.sub2 w w (replicate k []) (Np.scale2 (replicate k []) v)
  = Ok (replicate k []).
Proof.
  unfold Np.sub2, Np.scale2. rewrite broadcastable_refl, fmap_replicate.
  cbn [fmap list_fmap].
  rewrite broadcast_same_length by reflexivity.
  induction k as [|k IH]; [reflexivity|].
  cbn [replicate zip zip_with rmap fst snd]. rewrite IH. reflexivity.
Qed.

Lemma nansum2_empty_rows (k : nat) :
  Np.nansum2 (Np.square <$> replicate k []) = 0%float.
Proof.
  unfold Np.nansum2. rewrite fmap_replicate.
  induction k as [|k IH]; [reflexivity|exact IH].
Qed.

Lemma rmap_const {A B} (f : A -> result B) (b : B) (l : list A) :
  Forall (fun a => f a = Ok b) l -> rmap f l = Ok (replicate (length l) b).
Proof.
  induction 1 as [|a l H _ IH]; cbn; [reflexivity|]. now rewrite H, IH.
Qed.

(** Over an empty region every candidate has a NaN residual. *)
Lemma rms_at_degenerate (frames : list (list (list float)))
    (bkg : list (list float)) (x1 x2 y1 y2 : Z) (j : nat) (v : float) :
  (j < length frames)%nat ->
  forallb (fun frame => Np.same_shape frame bkg) frames = true ->
  x1 = x2 \/ y1 = y2 ->
  rms_at (PyArray3 frames) bkg x1 x2 y1 y2 ((x2 - x1) * (y2 - y1))
         (Z.of_nat j) v = Ok nan.
Proof.
  intros Hj Hs Hd. unfold rms_at, frame_of.
  destruct (index_in_range frames j Hj) as [frame Hf].
  rewrite Hf. cbn [mbind result_bind].
  assert (Sf : Np.row_lengths frame = Np.row_lengths bkg).
  { rewrite forallb_forall in Hs.
    pose proof (index_ok_in _ _ _ Hf) as Hin.
    specialize (Hs frame Hin). unfold Np.same_shape in Hs.
    now apply bool_decide_eq_true_1 in Hs. }
  rewrite (ncols_same_shape frame bkg Sf).
  destruct Hd as [->| ->].
  - rewrite !slice2_empty_rows, Z.sub_diag, Z.mul_0_l.
    unfold Np.sub2. rewrite broadcastable_refl. reflexivity.
  - rewrite !slice2_empty_columns, Z.sub_diag, Z.mul_0_r.
    assert (L : length frame = length bkg).
    { apply (f_equal length) in Sf. unfold Np.row_lengths in Sf.
      now rewrite !length_fmap in Sf. }
    rewrite (slice_length frame), (slice_length bkg), L.
    rewrite sub2_empty_rows. cbn [mbind result_bind].
    rewrite nansum2_empty_rows. reflexivity.
Qed.

Lemma argmin_nan_first (n : nat) : Np.argmin (replicate (S n) nan) = Ok 0%nat.
Proof. cbn [replicate Np.argmin]. destruct n; reflexivity. Qed.

(** X9. A degenerate region ([x1 = x2] or [y1 = y2]) is not rejected: on
    frames of the background's shape every residual is NaN, so each frame's
    best fit is the first candidate of the grid, and with the test flag off
    the call returns the [nanmedian] of one copy of it per frame, whatever
    the pixels hold. *)
Theorem scaling_degenerate_region_first_candidate :
  forall (frames integraions : list (list (list float)))
         (bkg : list (list float)) (x1 x2 y1 y2 : Z) (v0 : float)
         (vals : list float) (w : world),
    forallb (fun frame => Np.same_shape frame bkg) frames = true ->
    x1 = x2 \/ y1 = y2 ->
    scaling_image_regions_in (session frames) integraions bkg x1 x2 y1 y2
                             (v0 :: vals) false w
    = (Ok (Np.nanmedian (replicate (length frames) v0)), w).
Proof.
  intros frames integraions bkg x1 x2 y1 y2 v0 vals w Hs Hd.
  rewrite scaling_full_eq, range_of_nat.
  rewrite (rmap_const _ v0).
  - now rewrite length_fmap, length_seq.
  - apply Forall_fmap, Forall_forall. intros j Hj%elem_of_seq.
    unfold compose, best_fit.
    rewrite (rmap_const _ nan).
    + cbn [mbind result_bind length]. rewrite argmin_nan_first.
      reflexivity.
    + apply Forall_forall. intros v _.
      apply rms_at_degenerate; [lia|exact Hs|exact Hd].
Qed.

Lemma scaling_degenerate_region_first_candidate_witness :
  scaling_image_regions_in (session frames10) [] ones5 2 2 0 5
                           [1; 2; 3]%float false empty_world
  = (Ok (Np.nanmedian (replicate (length frames10) 1%float)), empty_world).
Proof.
  apply (scaling_degenerate_region_first_candidate frames10 [] ones5 2 2 0 5
           1%float [2; 3]%float empty_world).
  - vm_compute. reflexivity.
  - left. reflexivity.
Defined.

(** ** bin_at_resolution, with a global [wavelength] *)

(** X10. Once a global [wavelength] exists, the wrapper runs: it hands that
    global to the library, not its own first argument; it returns the first
    three outputs and drops the rest; fewer than three outputs end in
    [IndexError], and an exception of the library passes through. *)
Theorem bin_at_resolution_forwards_global :
  forall (ts_bin_at_resolution :
            pyobj -> list float -> Z -> string -> result (list (list float)))
         (o : pyobj) (wavelengths depths : list float) (R : Z)
         (method : string),
    bin_at_resolution_in ts_bin_at_resolution (session_wavelength o)
                         wavelengths depths R method
    = match ts_bin_at_resolution o depths R method with
      | Ok (wout :: dout :: derrout :: _) => Ok (wout, dout, derrout)
      | Ok _ => Raise IndexError
      | Raise e => Raise e
      end.
Proof.
  intros lib o wavelengths depths R method.
  assert (Hts : load_global (session_wavelength o) "ts"
                = Ok (PyModule "transitspectroscopy")) by reflexivity.
  assert (Hw : load_global (session_wavelength o) "wavelength" = Ok o)
    by reflexivity.
  unfold bin_at_resolution_in. rewrite Hts, Hw. cbn [mbind result_bind].
  destruct (lib o depths R method) as [[|a [|b [|c outs]]]|e]; reflexivity.
Qed.

(** ** chromatic_writer: what reaches the disk *)



(** ** stacked_transits: what every call does *)

Lemma mask_indices_lookup (mask : list bool) (j : nat) :
  j ∈ fst <$> filter (fun p : nat * bool => p.2 = true)
                     (zip (seq 0 (length mask)) mask)
  <-> mask !! j = Some true.
Proof.
  rewrite list_elem_of_fmap. split.
  - intros ([j' b] & -> & Hp). apply list_elem_of_filter in Hp as [Hb Hp].
    cbn in Hb. subst b. cbn [fst].
    apply elem_of_lookup_zip_with in Hp as (i & x & y & E & Hx & Hy).
    injection E as -> ->. apply lookup_seq in Hx as [-> _]. exact Hy.
  - intros H. exists (j, true). split; [reflexivity|].
    apply list_elem_of_filter. split; [reflexivity|].
    apply elem_of_lookup_zip_with. exists j, j, true.
    split; [reflexivity|]. split; [|exact H].
    apply lookup_seq. split; [reflexivity|].
    now apply lookup_lt_Some in H.
Qed.

(** X12. Lines 73-75: a channel is selected exactly when its wavelength lies in
    the closed window of half-width 0.5 around the center and the sum of its
    variances over time is below 1e7. *)
Theorem channels_selects_window :
  forall (wavelength : list float) (variance : list (list float))
         (center : float) (q : list nat) (j : nat),
    length (Np.nansum_axis0 variance) = length wavelength ->
    channels wavelength variance center = Ok q ->
    (j ∈ q
     <-> exists (wl s : float),
           wavelength !! j = Some wl
           /\ Np.nansum_axis0 variance !! j = Some s
           /\ (center - 0.5 <=? wl)%float = true
           /\ (wl <=? center + 0.5)%float = true
           /\ (s <? 1e7)%float = true).
Proof.
  intros wavelength variance center q j L.
  unfold channels.
  rewrite (broadcast_pure andb) by now rewrite !length_fmap.
  cbn [mbind result_bind].
  rewrite (broadcast_pure andb)
    by (rewrite !length_fmap, length_zip, !length_fmap; lia).
  cbn [mbind result_bind]. intros E. injection E as <-.
  rewrite mask_indices_lookup.
  unfold wave_offset. split.
  - intros H.
    apply list_lookup_fmap_Some in H as ([a b] & Hab & H).
    apply lookup_zip_Some in H as [Ha Hb]. cbn [fst snd] in Hab.
    apply list_lookup_fmap_Some in Ha as ([a1 a2] & Ha12 & Ha).
    apply lookup_zip_Some in Ha as [Ha1 Ha2]. cbn [fst snd] in Ha12.
    apply list_lookup_fmap_Some in Ha1 as (wl & -> & Hwl).
    apply list_lookup_fmap_Some in Ha2 as (wl' & -> & Hwl').
    apply list_lookup_fmap_Some in Hb as (sv & -> & Hs).
    assert (wl' = wl) as -> by congruence.
    subst a. symmetry in Hab.
    apply andb_prop in Hab as [[H1 H2]%andb_prop H3].
    exists wl, sv. auto.
  - intros (wl & sv & Hwl & Hs & H1 & H2 & H3).
    apply list_lookup_fmap_Some. exists (true, true). split; [reflexivity|].
    apply lookup_zip_Some. split.
    + apply list_lookup_fmap_Some. exists (true, true).
      split; [reflexivity|]. apply lookup_zip_Some.
      split; apply list_lookup_fmap_Some; exists wl; auto.
    + apply list_lookup_fmap_Some. exists sv. auto.
Qed.

Lemma channels_selects_window_witness :
  (1%nat ∈ [0; 1; 2]%nat
   <-> exists (wl s : float),
         waves3 !! 1%nat = Some wl
         /\ Np.nansum_axis0 unit_variance !! 1%nat = Some s
         /\ (1.2 - 0.5 <=? wl)%float = true
         /\ (wl <=? 1.2 + 0.5)%float = true
         /\ (s <? 1e7)%float = true).
Proof.
  apply (channels_selects_window waves3 unit_variance 1.2 [0; 1; 2]%nat 1);
    reflexivity.
Defined.

Lemma take_columns_nil (a : list (list float)) :
  take_columns a [] = Ok (replicate (length a) []).
Proof.
  unfold take_columns. apply rmap_const, Forall_forall.
  intros row _. reflexivity.
Qed.

Lemma sub_nan (o : float) : (nan - o)%float = nan.
Proof. apply Prim2SF_inj. rewrite sub_spec. reflexivity. Qed.

Lemma nanmedian_all_equal (v : float) (n : nat) :
  Np.isnan v = false -> ((v + v) / 2)%float = v -> (0 < n)%nat ->
  Np.nanmedian (replicate n v) = v.
Proof.
  intros Hv Hm Hn. unfold Np.nanmedian.
  rewrite filter_replicate_keep by exact Hv.
  unfold Np.median. rewrite sort_replicate, length_replicate.
  destruct (Nat.eqb_spec n 0) as [?|_]; [lia|].
  assert (Hh : (n / 2 < n)%nat) by (apply Nat.div_lt; lia).
  destruct (Nat.odd n).
  - now rewrite lookup_replicate_2.
  - rewrite !lookup_replicate_2 by lia. exact Hm.
Qed.

(** The series of a center for which the channels [q] are selected (lines
    77-86): NaN throughout when [q] is empty. *)
Lemma empty_selection_series (flux fq : list (list float)) (o : float) :
  (0 < length flux)%nat ->
  take_columns flux [] = Ok fq ->
  (fun s => (s - o)%float)
    <$> ((fun s =>
            (s / Np.nanmedian
                   ((fun s => (s / 1e6)%float) <$> Np.nansum_axis1 fq))%float)
           <$> ((fun s => (s / 1e6)%float) <$> Np.nansum_axis1 fq))
  = replicate (length flux) nan.
Proof.
  intros HT. rewrite take_columns_nil. intros E. injection E as <-.
  unfold Np.nansum_axis1. rewrite !fmap_replicate.
  assert (Z0 : (Np.nansum [] / 1e6)%float = 0%float) by reflexivity.
  rewrite Z0, (nanmedian_all_equal 0 _ eq_refl eq_refl HT).
  assert (N0 : (0 / 0)%float = nan) by reflexivity.
  now rewrite N0, sub_nan.
Qed.

Lemma take_columns_unsigned (flux fq : list (list float)) (q : list nat) :
  forallb (forallb Np.unsigned) flux = true ->
  take_columns flux q = Ok fq ->
  Forall (Forall (fun x => Np.unsigned x = true)) fq.
Proof.
  unfold take_columns. revert fq.
  induction flux as [|row flux IH]; intros fq H E; cbn [rmap] in E.
  - injection E as <-. constructor.
  - cbn [forallb] in H. apply andb_prop in H as [Hrow H].
    destruct (rmap (fun j : nat => index row (Z.of_nat j)) q)
      as [r|e] eqn:Er; cbn in E; [|discriminate].
    destruct (rmap _ flux) as [rs|e]; cbn in E; [|discriminate].
    injection E as <-. constructor; [|now apply IH].
    refine (rmap_Forall _ _ _ _ r Er). intros j b Hb. cbn in Hb.
    rewrite forallb_forall in Hrow. apply Hrow.
    exact (index_ok_in _ _ _ Hb).
Qed.

(** The median that normalises a center has no minus sign when no flux
    sample has one. *)
Lemma unsigned_median_flux (flux fq : list (list float)) (q : list nat) :
  forallb (forallb Np.unsigned) flux = true ->
  take_columns flux q = Ok fq ->
  Np.unsigned
    (Np.nanmedian ((fun s => (s / 1e6)%float) <$> Np.nansum_axis1 fq))
  = true.
Proof.
  intros H E. apply unsigned_nanmedian.
  unfold Np.nansum_axis1. rewrite <- list_fmap_compose.
  apply Forall_fmap.
  eapply Forall_impl; [exact (take_columns_unsigned flux fq q H E)|].
  intros row Hrow. cbn.
  apply unsigned_div; [now apply unsigned_nansum|reflexivity].
Qed.

(** One pass of the loop on arrays of matching shapes, up to the lookup of
    the colour: the rms line is printed first. *)
Lemma plot_center_eq (colors : list (list float))
    (time wavelength : list float) (flux variance : list (list float))
    (offset_delta : float) (text : bool) (time_ind : Z)
    (linestyle : string) (st : loop_state) (center : float) (w : world) :
  (0 < length time)%nat ->
  rectangular flux (length time) (length wavelength) = true ->
  rectangular variance (length time) (length wavelength) = true ->
  valid_linestyle linestyle = true ->
  forallb valid_color colors = true ->
  forallb (forallb Np.unsigned) flux = true ->
  exists (y yerr spec : list float) (rms : float),
    series_ok time wavelength variance center y
    /\ plot_center colors time wavelength flux variance offset_delta text
         time_ind linestyle st center w
       = let w1 := World (stdout w ++ [PrintRms rms]) (csv_files w)
                         (npy_files w) in
         match index colors (x st) with
         | Raise e => (Raise e, w1)
         | Ok c =>
             let bar := Errorbar time y yerr linestyle c "."
                                 (Np.round2 center) in
             let st' l := LoopState (offset st - offset_delta) (x st + 15)
                                    (drawn st ++ bar :: l) in
             if text
             then match index time time_ind with
                  | Ok tx =>
                      (Ok (st' [Text tx
                                  (Np.nanmedian (slice_from spec 210)
                                   - offset st + 0.001)
                                  (Np.round2 center) 16]), w1)
                  | Raise e => (Raise e, w1)
                  end
             else (Ok (st' []), w1)
         end.
Proof.
  intros HT Rf Rv Hls Hcs Hu.
  destruct (channels_ok wavelength variance (length time) center Rv HT)
    as (q & Hq & Bq).
  destruct (take_columns_ok flux _ _ q Rf Bq) as (fq & Hfq & Lfq).
  destruct (take_columns_ok variance _ _ q Rv Bq) as (vq & Hvq & Lvq).
  pose proof (unsigned_median_flux flux fq q Hu Hfq) as Hmed.
  set (spec0 := (fun s => (s / 1e6)%float) <$> Np.nansum_axis1 fq) in *.
  set (spec := (fun s => (s / Np.nanmedian spec0)%float) <$> spec0).
  set (y := (fun s => (s - offset st)%float) <$> spec).
  set (yerr := (fun e => (e / Np.nanmedian spec0)%float)
                 <$> ((fun s => (sqrt s / 1e6)%float)
                        <$> Np.nansum_axis1 (Np.square <$> vq))).
  assert (Ly : length y = length time).
  { unfold y, spec, spec0, Np.nansum_axis1. now rewrite !length_fmap. }
  assert (Le : length yerr = length time).
  { unfold yerr, Np.nansum_axis1. now rewrite !length_fmap. }
  exists y, yerr, spec. eexists. split.
  - split; [exact Ly|]. unfold selected. rewrite Hq. intros Hz.
    destruct q; [|discriminate].
    apply rectangular_inv in Rf as [Lf _]. rewrite <- Lf.
    apply (empty_selection_series flux fq (offset st)); [lia|exact Hfq].
  - unfold plot_center, mbind, py_bind, lift, print, mret, py_ret.
    rewrite Hq, Hfq, Hvq. cbv zeta.
    destruct (index colors (x st)) as [c|e] eqn:Hcol; [|reflexivity].
    fold spec0. fold spec. fold y. fold yerr.
    rewrite errorbar_ok;
      [|congruence|congruence
       |apply error_bars_not_negative, Hmed
       |exact (valid_color_row _ _ _ Hcs Hcol)|exact Hls].
    destruct text; [|reflexivity].
    destruct (index time time_ind); reflexivity.
Qed.

Lemma plot_centers_ok (colors : list (list float))
    (time wavelength : list float) (flux variance : list (list float))
    (offset_delta : float) (text : bool) (time_ind : Z)
    (linestyle : string) (centers : list float) :
  (0 < length time)%nat ->
  rectangular flux (length time) (length wavelength) = true ->
  rectangular variance (length time) (length wavelength) = true ->
  valid_linestyle linestyle = true ->
  forallb valid_color colors = true ->
  forallb (forallb Np.unsigned) flux = true ->
  (text = false
   \/ (- Z.of_nat (length time) <= time_ind < Z.of_nat (length time))%Z) ->
  forall (st : loop_state) (w : world),
    (0 <= x st)%Z ->
    (x st + 15 * Z.of_nat (length centers)
     <= Z.of_nat (length colors) + 14)%Z ->
    exists (st' : loop_state) (more : list (list float))
           (prints : list printed),
      plot_centers
        (plot_center colors time wavelength flux variance offset_delta text
                     time_ind linestyle)
        centers st w
      = (Ok st', World (stdout w ++ prints) (csv_files w) (npy_files w))
      /\ series_of (drawn st') = series_of (drawn st) ++ more
      /\ Forall2 (series_ok time wavelength variance) centers more
      /\ length (drawn st')
         = (length (drawn st)
            + (if text then 2 else 1) * length centers)%nat
      /\ length prints = length centers
      /\ forallb is_rms prints = true.
Proof.
  intros HT Rf Rv Hls Hcs Hu Htext.
  induction centers as [|center centers IH]; intros st w Hx Hc.
  - exists st, [], []. cbn. rewrite !app_nil_r.
    destruct w; repeat split; [constructor|lia].
  - cbn [length] in Hc.
    destruct (plot_center_eq colors time wavelength flux variance
                offset_delta text time_ind linestyle st center w HT Rf Rv
                Hls Hcs Hu)
      as (y & yerr & spec & rms & Hy & E).
    destruct (index_signed_ok colors (x st)) as [c Hcol]; [lia|].
    rewrite Hcol in E. cbv zeta in E.
    set (w1 := World (stdout w ++ [PrintRms rms]) (csv_files w)
                     (npy_files w)) in *.
    assert (Hst : exists l,
               plot_center colors time wavelength flux variance offset_delta
                 text time_ind linestyle st center w
               = (Ok (LoopState (offset st - offset_delta) (x st + 15)
                        (drawn st
                         ++ Errorbar time y yerr linestyle c "."
                                     (Np.round2 center) :: l)), w1)
               /\ series_of l = []
               /\ length l = if text then 1%nat else 0%nat).
    { destruct text.
      - destruct Htext as [?|Hr]; [discriminate|].
        destruct (index_signed_ok time time_ind Hr) as [tx Htx].
        rewrite Htx in E. eexists. split; [exact E|]. split; reflexivity.
      - exists []. split; [exact E|]. split; reflexivity. }
    destruct Hst as (l & E1 & Hl & Ll).
    destruct (IH (LoopState (offset st - offset_delta) (x st + 15)
                    (drawn st
                     ++ Errorbar time y yerr linestyle c "."
                                 (Np.round2 center) :: l)) w1)
      as (st' & more & prints & E' & Hs & Hf & Hd & Lp & Hp);
      [cbn [x]; lia|cbn [x]; lia|].
    exists st', (y :: more), (PrintRms rms :: prints).
    split; [|split; [|split; [|split; [|split]]]].
    + cbn [plot_centers]. unfold mbind, py_bind. rewrite E1, E'.
      unfold w1. cbn [stdout csv_files npy_files].
      now rewrite <- app_assoc.
    + rewrite Hs. cbn [drawn]. rewrite series_of_app.
      change (series_of (Errorbar time y yerr linestyle c "."
                                  (Np.round2 center) :: l))
        with (y :: series_of l).
      rewrite Hl, <- app_assoc. reflexivity.
    + constructor; [exact Hy|exact Hf].
    + rewrite Hd. cbn [drawn length]. rewrite length_app. cbn [length].
      rewrite Ll. destruct text; lia.
    + cbn [length]. now rewrite Lp.
    + cbn [forallb is_rms]. exact Hp.
Qed.

(** X13. On arrays of matching shapes (flux and variance of one row per time and
    one column per wavelength, at least one time sample), a flux without
    negative values, and arguments matplotlib accepts (a positive figure
    size, a line style it knows, a table of RGB or RGBA colours that covers
    index 15(n-1)), with the annotation either off or inside the time axis,
    the call completes: the figure holds one error-bar series per center,
    each with one sample per time, and one text per center when the
    annotation is on; one rms line per center is printed and no file is
    touched. *)
Theorem stacked_transits_returns :
  forall (colors : list (list float)) (time wavelength : list float)
         (flux variance : list (list float)) (centers : list float)
         (offset offset_delta : float) (figsize : Z * Z) (text : bool)
         (time_ind : Z) (linestyle : string) (w : world),
    (0 < length time)%nat ->
    rectangular flux (length time) (length wavelength) = true ->
    rectangular variance (length time) (length wavelength) = true ->
    valid_figsize figsize = true ->
    valid_linestyle linestyle = true ->
    forallb valid_color colors = true ->
    forallb (forallb Np.unsigned) flux = true ->
    (15 * length centers <= length colors + 14)%nat ->
    (text = false
     \/ (- Z.of_nat (length time) <= time_ind < Z.of_nat (length time))%Z) ->
    exists (fig : figure) (prints : list printed),
      stacked_transits colors time wavelength flux variance centers offset
                       offset_delta figsize text time_ind linestyle w
      = (Ok fig, World (stdout w ++ prints) (csv_files w) (npy_files w))
      /\ length (series fig) = length centers
      /\ Forall (fun y => length y = length time) (series fig)
      /\ length (artists fig)
         = ((if text then 2 else 1) * length centers)%nat
      /\ length prints = length centers
      /\ forallb is_rms prints = true.
Proof.
  intros colors time wavelength flux variance centers offset0 delta figsize
         text time_ind linestyle w HT Rf Rv Hfs Hls Hcs Hu Hc Htext.
  destruct (plot_centers_ok colors time wavelength flux variance delta text
              time_ind linestyle centers HT Rf Rv Hls Hcs Hu Htext
              (LoopState offset0 0 []) w)
    as (st' & more & prints & E & Hs & Hf & Hd & Lp & Hp);
    [cbn [x]; lia|cbn [x]; lia|].
  exists (Figure figsize "w" (drawn st')), prints.
  split; [|split; [|split; [|split; [|split]]]].
  - unfold stacked_transits, subplots, mbind, py_bind, lift.
    rewrite Hfs, E. reflexivity.
  - unfold series. cbn [artists]. rewrite Hs. cbn [drawn series_of omap app].
    symmetry. exact (Forall2_length _ _ _ Hf).
  - unfold series. cbn [artists]. rewrite Hs. cbn [drawn series_of omap app].
    clear -Hf. induction Hf as [|c y cs ys [Hy _] _ IH]; constructor; auto.
  - cbn [artists]. rewrite Hd. reflexivity.
  - exact Lp.
  - exact Hp.
Qed.

Lemma stacked_transits_returns_witness :
  exists (fig : figure) (prints : list printed),
    stacked_transits colors16 times4 waves3 flux43 unit_variance
                     [1.2; 2.0]%float 0.05 0.005 (8, 14)%Z true 3 ""
                     empty_world
    = (Ok fig, World (stdout empty_world ++ prints) (csv_files empty_world)
                     (npy_files empty_world))
    /\ length (series fig) = length [1.2; 2.0]%float
    /\ Forall (fun y => length y = length times4) (series fig)
    /\ length (artists fig)
       = ((if true then 2 else 1) * length [1.2; 2.0]%float)%nat
    /\ length prints = length [1.2; 2.0]%float
    /\ forallb is_rms prints = true.
Proof.
  apply (stacked_transits_returns colors16 times4 waves3 flux43 unit_variance
           [1.2; 2.0]%float 0.05 0.005 (8, 14)%Z true 3 "" empty_world).
  - vm_compute. lia.
  - vm_compute. reflexivity.
  - vm_compute. reflexivity.
  - reflexivity.
  - reflexivity.
  - vm_compute. reflexivity.
  - vm_compute. reflexivity.
  - vm_compute. lia.
  - right. change (length times4) with 4%nat. lia.
Defined.

(** X14. A center whose window selects no channel does not stop the call: on
    the input of X13 its series is NaN at every time (a gap in the plot),
    and the centers after it are still drawn. *)
Theorem stacked_transits_empty_selection_gap :
  forall (colors : list (list float)) (time wavelength : list float)
         (flux variance : list (list float)) (centers : list float)
         (offset offset_delta : float) (figsize : Z * Z) (text : bool)
         (time_ind : Z) (linestyle : string) (w : world) (i : nat)
         (center : float),
    (0 < length time)%nat ->
    rectangular flux (length time) (length wavelength) = true ->
    rectangular variance (length time) (length wavelength) = true ->
    valid_figsize figsize = true ->
    valid_linestyle linestyle = true ->
    forallb valid_color colors = true ->
    forallb (forallb Np.unsigned) flux = true ->
    (15 * length centers <= length colors + 14)%nat ->
    (text = false
     \/ (- Z.of_nat (length time) <= time_ind < Z.of_nat (length time))%Z) ->
    centers !! i = Some center ->
    selected wavelength variance center = 0%nat ->
    exists (fig : figure) (w' : world),
      stacked_transits colors time wavelength flux variance centers offset
                       offset_delta figsize text time_ind linestyle w
      = (Ok fig, w')
      /\ length (series fig) = length centers
      /\ series fig !! i = Some (replicate (length time) nan).
Proof.
  intros colors time wavelength flux variance centers offset0 delta figsize
         text time_ind linestyle w i center HT Rf Rv Hfs Hls Hcs Hu Hc Htext
         Hi Hz.
  destruct (plot_centers_ok colors time wavelength flux variance delta text
              time_ind linestyle centers HT Rf Rv Hls Hcs Hu Htext
              (LoopState offset0 0 []) w)
    as (st' & more & prints & E & Hs & Hf & _);
    [cbn [x]; lia|cbn [x]; lia|].
  eexists (Figure figsize "w" (drawn st')), _. split; [|split].
  - unfold stacked_transits, subplots, mbind, py_bind, lift.
    rewrite Hfs, E. reflexivity.
  - unfold series. cbn [artists]. rewrite Hs. cbn [drawn series_of omap app].
    symmetry. exact (Forall2_length _ _ _ Hf).
  - unfold series. cbn [artists]. rewrite Hs.
    change (series_of (drawn (LoopState offset0 0 [])) ++ more) with more.
    destruct (Forall2_lookup_l _ _ _ _ _ Hf Hi) as (y & Hy & _ & Hnan).
    rewrite Hy. f_equal. now apply Hnan.
Qed.

Lemma stacked_transits_empty_selection_gap_witness :
  exists (fig : figure) (w' : world),
    stacked_transits colors16 times4 waves3 flux43 unit_variance
                     [2.0; 1.2]%float 0.05 0.005 (8, 14)%Z false 230 ""
                     empty_world
    = (Ok fig, w')
    /\ length (series fig) = length [2.0; 1.2]%float
    /\ series fig !! 0%nat = Some (replicate (length times4) nan).
Proof.
  apply (stacked_transits_empty_selection_gap colors16 times4 waves3 flux43
           unit_variance [2.0; 1.2]%float 0.05 0.005 (8, 14)%Z false 230 ""
           empty_world 0 2.0%float).
  - vm_compute. lia.
  - vm_compute. reflexivity.
  - vm_compute. reflexivity.
  - reflexivity.
  - reflexivity.
  - vm_compute. reflexivity.
  - vm_compute. reflexivity.
  - vm_compute. lia.
  - left. reflexivity.
  - reflexivity.
  - vm_compute. reflexivity.
Defined.

(** ** stacked_transits: how it fails *)

Lemma index_out_of_range {A} (l : list A) (i : Z) :
  (i < - Z.of_nat (length l) \/ Z.of_nat (length l) <= i)%Z ->
  index l i = Raise IndexError.
Proof.
  intros H. unfold index.
  destruct (Z.ltb_spec i 0) as [Hn|Hn].
  - destruct (Z.ltb_spec (i + Z.of_nat (length l)) 0) as [_|?];
      [reflexivity|lia].
  - destruct (Z.ltb_spec i 0) as [?|_]; [lia|].
    rewrite lookup_ge_None_2 by lia. reflexivity.
Qed.

(** X15. With the annotation on, [time[time_ind]] is read for the first center
    right after its series is drawn: on the input of X13, when [time_ind]
    (230 by default) lies outside the time axis the call ends in
    [IndexError] and no figure is completed; the first rms line has been
    printed by then. *)
Theorem stacked_transits_annotation_out_of_range :
  forall (colors : list (list float)) (time wavelength : list float)
         (flux variance : list (list float)) (center : float)
         (centers : list float) (offset offset_delta : float)
         (figsize : Z * Z) (time_ind : Z) (linestyle : string) (w : world),
    (0 < length time)%nat ->
    rectangular flux (length time) (length wavelength) = true ->
    rectangular variance (length time) (length wavelength) = true ->
    valid_figsize figsize = true ->
    valid_linestyle linestyle = true ->
    forallb valid_color colors = true ->
    forallb (forallb Np.unsigned) flux = true ->
    colors <> [] ->
    (time_ind < - Z.of_nat (length time)
     \/ Z.of_nat (length time) <= time_ind)%Z ->
    exists rms : float,
      stacked_transits colors time wavelength flux variance
                       (center :: centers) offset offset_delta figsize true
                       time_ind linestyle w
      = (Raise IndexError,
         World (stdout w ++ [PrintRms rms]) (csv_files w) (npy_files w)).
Proof.
  intros colors time wavelength flux variance center centers offset0 delta
         figsize time_ind linestyle w HT Rf Rv Hfs Hls Hcs Hu Hc Hi.
  destruct (plot_center_eq colors time wavelength flux variance delta true
              time_ind linestyle (LoopState offset0 0 []) center w HT Rf Rv
              Hls Hcs Hu)
    as (y & yerr & spec & rms & _ & E).
  destruct (index_signed_ok colors 0) as [c Hcol].
  { destruct colors; [congruence|]. cbn [length]. lia. }
  cbn [x] in E. rewrite Hcol, (index_out_of_range time time_ind Hi) in E.
  exists rms. unfold stacked_transits, subplots. rewrite Hfs.
  cbn [plot_centers]. unfold mbind, py_bind, lift. rewrite E. reflexivity.
Qed.

Lemma stacked_transits_annotation_out_of_range_witness :
  exists rms : float,
    stacked_transits colors16 times4 waves3 flux43 unit_variance
                     (1.2%float :: [2.0]%float) default_offset
                     default_offset_delta default_figsize true
                     default_time_ind default_linestyle empty_world
    = (Raise IndexError,
       World (stdout empty_world ++ [PrintRms rms]) (csv_files empty_world)
             (npy_files empty_world)).
Proof.
  apply (stacked_transits_annotation_out_of_range colors16 times4 waves3
           flux43 unit_variance 1.2%float [2.0]%float default_offset
           default_offset_delta default_figsize default_time_ind
           default_linestyle empty_world).
  - vm_compute. lia.
  - vm_compute. reflexivity.
  - vm_compute. reflexivity.
  - reflexivity.
  - reflexivity.
  - vm_compute. reflexivity.
  - vm_compute. reflexivity.
  - discriminate.
  - right. vm_compute. discriminate.
Defined.

Lemma plot_centers_no_colour (colors : list (list float))
    (time wavelength : list float) (flux variance : list (list float))
    (offset_delta : float) (text : bool) (time_ind : Z)
    (linestyle : string) (centers : list float) :
  (0 < length time)%nat ->
  rectangular flux (length time) (length wavelength) = true ->
  rectangular variance (length time) (length wavelength) = true ->
  valid_linestyle linestyle = true ->
  forallb valid_color colors = true ->
  forallb (forallb Np.unsigned) flux = true ->
  (text = false
   \/ (- Z.of_nat (length time) <= time_ind < Z.of_nat (length time))%Z) ->
  forall (st : loop_state) (w : world),
    (0 <= x st)%Z -> centers <> [] ->
    (Z.of_nat (length colors)
     <= x st + 15 * (Z.of_nat (length centers) - 1))%Z ->
    exists w' : world,
      plot_centers
        (plot_center colors time wavelength flux variance offset_delta text
                     time_ind linestyle)
        centers st w = (Raise IndexError, w').
Proof.
  intros HT Rf Rv Hls Hcs Hu Htext.
  induction centers as [|center centers IH]; intros st w Hx Hne Hc;
    [congruence|].
  cbn [length] in Hc.
  destruct (plot_center_eq colors time wavelength flux variance offset_delta
              text time_ind linestyle st center w HT Rf Rv Hls Hcs Hu)
    as (y & yerr & spec & rms & _ & E).
  cbn [plot_centers]. unfold mbind, py_bind.
  destruct (Z.lt_ge_cases (x st) (Z.of_nat (length colors))) as [Hlt|Hge].
  - destruct (index_signed_ok colors (x st)) as [c Hcol]; [lia|].
    rewrite Hcol in E. cbv zeta in E.
    assert (Hst : exists st1 w1,
               plot_center colors time wavelength flux variance offset_delta
                 text time_ind linestyle st center w = (Ok st1, w1)
               /\ x st1 = (x st + 15)%Z).
    { destruct text.
      - destruct Htext as [?|Hr]; [discriminate|].
        destruct (index_signed_ok time time_ind Hr) as [tx Htx].
        rewrite Htx in E. eexists _, _. split; [exact E|reflexivity].
      - eexists _, _. split; [exact E|reflexivity]. }
    destruct Hst as (st1 & w1 & E1 & Hx1). rewrite E1.
    apply IH; [lia| |rewrite Hx1; lia].
    intros ->. cbn [length] in Hc. lia.
  - rewrite (index_out_of_range colors (x st)) in E by lia.
    rewrite E. eauto.
Qed.

(** X16. The colour of the k-th center is row 15k of the table: on the input
    of X13 but with a table of no more than 15(n-1) rows for n centers, the
    call ends in [IndexError] and no figure is completed. *)
Theorem stacked_transits_colour_table_exhausted :
  forall (colors : list (list float)) (time wavelength : list float)
         (flux variance : list (list float)) (centers : list float)
         (offset offset_delta : float) (figsize : Z * Z) (text : bool)
         (time_ind : Z) (linestyle : string) (w : world),
    (0 < length time)%nat ->
    rectangular flux (length time) (length wavelength) = true ->
    rectangular variance (length time) (length wavelength) = true ->
    valid_figsize figsize = true ->
    valid_linestyle linestyle = true ->
    forallb valid_color colors = true ->
    forallb (forallb Np.unsigned) flux = true ->
    (text = false
     \/ (- Z.of_nat (length time) <= time_ind < Z.of_nat (length time))%Z) ->
    centers <> [] ->
    (length colors <= 15 * (length centers - 1))%nat ->
    exists w' : world,
      stacked_transits colors time wavelength flux variance centers offset
                       offset_delta figsize text time_ind linestyle w
      = (Raise IndexError, w').
Proof.
  intros colors time wavelength flux variance centers offset0 delta figsize
         text time_ind linestyle w HT Rf Rv Hfs Hls Hcs Hu Htext Hne Hc.
  destruct (plot_centers_no_colour colors time wavelength flux variance delta
              text time_ind linestyle centers HT Rf Rv Hls Hcs Hu Htext
              (LoopState offset0 0 []) w) as [w' E];
    [cbn [x]; lia|exact Hne| |].
  - cbn [x]. destruct centers; [congruence|]. cbn [length] in *. lia.
  - exists w'. unfold stacked_transits, subplots, mbind, py_bind, lift.
    now rewrite Hfs, E.
Qed.

Lemma stacked_transits_colour_table_exhausted_witness :
  exists w' : world,
    stacked_transits colors3 times4 waves3 flux43 unit_variance
                     [1.2; 1.0]%float 0.05 0.005 (8, 14)%Z false 230 ""
                     empty_world
    = (Raise IndexError, w').
Proof.
  apply (stacked_transits_colour_table_exhausted colors3 times4 waves3 flux43
           unit_variance [1.2; 1.0]%float 0.05 0.005 (8, 14)%Z false 230 ""
           empty_world).
  - vm_compute. lia.
  - vm_compute. reflexivity.
  - vm_compute. reflexivity.
  - reflexivity.
  - reflexivity.
  - vm_compute. reflexivity.
  - vm_compute. reflexivity.
  - left. reflexivity.
  - discriminate.
  - vm_compute. lia.
Defined.

Lemma channels_shape_mismatch (wavelength : list float)
    (variance : list (list float)) (center : float) :
  length (Np.nansum_axis0 variance) <> length wavelength ->
  length (Np.nansum_axis0 variance) <> 1%nat ->
  length wavelength <> 1%nat ->
  channels wavelength variance center = Raise ValueError.
Proof.
  intros H1 H2 H3. unfold channels.
  rewrite (broadcast_pure andb) by now rewrite !length_fmap.
  cbn [mbind result_bind].
  set (inwin := (fun p : bool * bool => p.1 && p.2) <$> _).
  set (quiet := (fun s => (s <? 1e7)%float) <$> _).
  assert (Li : length inwin = length wavelength).
  { unfold inwin. rewrite length_fmap, length_zip, !length_fmap. lia. }
  assert (Lq : length quiet = length (Np.nansum_axis0 variance)).
  { unfold quiet. now rewrite length_fmap. }
  unfold Np.broadcast. rewrite bool_decide_eq_false_2 by congruence.
  destruct inwin as [|a [|a' inwin]], quiet as [|b [|b' quiet]];
    cbn [length] in Li, Lq; try congruence; reflexivity.
Qed.

(** X17. A variance array whose number of columns differs from the number of
    wavelengths (neither being 1, which NumPy would broadcast) is rejected
    by the first mask: the call ends in [ValueError] before anything is
    printed or drawn. *)
Theorem stacked_transits_variance_shape_mismatch :
  forall (colors : list (list float)) (time wavelength : list float)
         (flux variance : list (list float)) (rows columns : nat)
         (center : float) (centers : list float)
         (offset offset_delta : float) (figsize : Z * Z) (text : bool)
         (time_ind : Z) (linestyle : string) (w : world),
    (0 < rows)%nat ->
    rectangular variance rows columns = true ->
    columns <> length wavelength -> columns <> 1%nat ->
    length wavelength <> 1%nat ->
    stacked_transits colors time wavelength flux variance (center :: centers)
                     offset offset_delta figsize text time_ind linestyle w
    = (Raise ValueError, w).
Proof.
  intros colors time wavelength flux variance rows columns center centers
         offset0 delta figsize text time_ind linestyle w Hr Rv H1 H2 H3.
  pose proof (nansum_axis0_length variance rows columns Rv Hr) as L.
  unfold stacked_transits, subplots. cbn [plot_centers].
  unfold mbind, py_bind, plot_center, lift.
  destruct (valid_figsize figsize); [|reflexivity].
  rewrite channels_shape_mismatch by congruence. reflexivity.
Qed.

Lemma stacked_transits_variance_shape_mismatch_witness :
  stacked_transits colors16 times4 waves3 flux43 narrow_variance
                   (1.2%float :: []) 0.05 0.005 (8, 14)%Z false 230 ""
                   empty_world
  = (Raise ValueError, empty_world).
Proof.
  apply (stacked_transits_variance_shape_mismatch colors16 times4 waves3
           flux43 narrow_variance 4 2 1.2%float [] 0.05 0.005 (8, 14)%Z
           false 230 "" empty_world).
  - lia.
  - vm_compute. reflexivity.
  - vm_compute. lia.
  - lia.
  - vm_compute. lia.
Defined.
